(** * convert_otel_simple.py: extraction of tool calls from an OTEL JSONL log

    A shallow embedding of [convert_otel_simple.py] and the properties of
    its extraction loop, its report rendering and its output path.

    The script is a straight-line program: it reads the lines of a JSONL
    file, decodes each one with [json.loads], accumulates a list of
    tool-call dicts, prints a summary and writes a small YML document.
    Python values are modelled by the inductive [value], dicts by
    association lists in insertion order, exceptions by the [result]
    type, and the file system and console by the record [world].  The
    extraction loop is also given on objects in a store, with references
    and in-place updates, and related to the loop on values. *)

From Stdlib Require Import ZArith String Ascii List.
From Stdlib Require Import Floats.SpecFloat Numbers.DecimalString.
From stdpp Require Import base list strings gmap.

Local Open Scope string_scope.
Local Open Scope list_scope.
Local Open Scope Z_scope.

Local Set Warnings "-register-all,-clear-no-such-hyp".

(** ** Python values *)

(** What [json.loads] can return: [None], booleans, integers, floats,
    strings, lists, and dicts with string keys.  A dict is kept as the list
    of its items in insertion order, the order Python's [repr] shows. *)
Inductive value : Type :=
  | VNone
  | VBool (b : bool)
  | VInt (z : Z)
  | VFloat (f : spec_float)
  | VStr (s : string)
  | VList (l : list value)
  | VDict (d : list (string * value)).

Abbreviation dict := (list (string * value)).

(** The exceptions the script can raise. *)
Inductive exn : Type :=
  | JSONDecodeError
  | AttributeError
  | FileNotFoundError
  | PermissionError
  | UnicodeEncodeError
  | UnicodeDecodeError
  | OSError
  | TypeError.

Inductive result (A : Type) : Type :=
  | Ok (a : A)
  | Raise (e : exn).
Arguments Ok {A} a.
Arguments Raise {A} e.

Definition bind {A B : Type} (r : result A) (k : A -> result B) : result B :=
  match r with
  | Ok a => k a
  | Raise e => Raise e
  end.

Notation "'let*' x ':=' r 'in' k" := (bind r (fun x => k))
  (at level 10, x name, r at level 100, k at level 200).

(** ** Dict operations *)

(** [d.get(k)] without its default: the item stored under [k], if any. *)
Fixpoint dict_lookup (d : dict) (k : string) : option value :=
  match d with
  | [] => None
  | (k', v) :: rest => if String.eqb k' k then Some v else dict_lookup rest k
  end.

(** [d.get(k, default)]. *)
Definition dict_get (d : dict) (k : string) (default : value) : value :=
  match dict_lookup d k with
  | Some v => v
  | None => default
  end.

(** [d[k] = v]: an existing key keeps its position, a new key goes last. *)
Fixpoint dict_set (d : dict) (k : string) (v : value) : dict :=
  match d with
  | [] => [(k, v)]
  | (k', v') :: rest =>
      if String.eqb k' k then (k', v) :: rest else (k', v') :: dict_set rest k v
  end.

(** [x.get(k, default)] on an arbitrary value: only a dict has [get]. *)
Definition py_get (x : value) (k : string) (default : value) : result value :=
  match x with
  | VDict d => Ok (dict_get d k default)
  | _ => Raise AttributeError
  end.

(** [x == s] for a string literal [s]. *)
Definition eq_str (x : value) (s : string) : bool :=
  match x with
  | VStr s' => String.eqb s' s
  | _ => false
  end.

(** Truth value of [x], as tested by [if x:]. *)
Definition truthy (x : value) : bool :=
  match x with
  | VNone => false
  | VBool b => b
  | VInt z => negb (z =? 0)
  | VFloat f => match f with S754_zero _ => false | _ => true end
  | VStr s => negb (String.eqb s "")
  | VList l => match l with [] => false | _ => true end
  | VDict d => match d with [] => false | _ => true end
  end.

(** ** The extraction loop *)

(** The dict literal appended for a [ToolInput] event. *)
Definition new_call (data tool_input : value) : result dict :=
  let* tool_name := py_get tool_input "tool_name" VNone in
  let* start_time := py_get data "timestamp" VNone in
  let* input := py_get tool_input "tool_args" (VDict []) in
  let* timing := py_get data "timing" (VDict []) in
  let* duration_ms := py_get timing "step_timeuse_ms" (VInt 0) in
  Ok [("tool_name", tool_name); ("start_time", start_time);
      ("input", input); ("duration_ms", duration_ms)].

(** [tool_calls[-1]['output'] = ...; tool_calls[-1]['success'] = ...]. *)
Definition attach_output (tool_calls : list dict) (tool_output : value)
  : result (list dict) :=
  match last tool_calls with
  | None => Ok tool_calls
  | Some call =>
      let* results := py_get tool_output "results" (VStr "") in
      let call := dict_set call "output" results in
      let* success := py_get tool_output "success" (VBool false) in
      let call := dict_set call "success" success in
      Ok (<[pred (length tool_calls) := call]> tool_calls)
  end.

(** The body of the [for] loop after [data = json.loads(line)]. *)
Definition process (tool_calls : list dict) (data : value) : result (list dict) :=
  let* event_type := py_get data "event_type" VNone in
  if eq_str event_type "ToolInput" then
    let* tool_input := py_get data "tool_input" (VDict []) in
    if truthy tool_input then
      let* call := new_call data tool_input in
      Ok (tool_calls ++ [call])
    else Ok tool_calls
  else if eq_str event_type "ToolOutput" then
    let* tool_output := py_get data "tool_output" (VDict []) in
    attach_output tool_calls tool_output
  else Ok tool_calls.

(** ** Text *)

Definition nl : string := String (ascii_of_nat 10) EmptyString.
Definition dquote : string := String (ascii_of_nat 34) EmptyString.

(** [str(n)] for an integer: decimal digits, with a minus sign if negative. *)
Definition int_str (z : Z) : string := NilZero.string_of_int (Z.to_int z).

(** [s.replace(old, new)] for a non-empty [old]: the occurrences of [old]
    are found from left to right and do not overlap.  [skip] counts the
    characters of the current occurrence that are still to be dropped. *)
Fixpoint replace_from (old new : string) (skip : nat) (s : string) : string :=
  match s with
  | EmptyString => EmptyString
  | String c rest =>
      match skip with
      | S k => replace_from old new k rest
      | O =>
          if String.prefix old s
          then new +:+ replace_from old new (pred (String.length old)) rest
          else String c (replace_from old new 0 rest)
      end
  end.

Definition str_replace (s old new : string) : string := replace_from old new 0 s.

(** The lines a text file yields when iterated; each keeps its newline.
    File contents are the text as Python's text layer presents it. *)
Fixpoint file_lines (s : string) : list string :=
  match s with
  | EmptyString => []
  | String c rest =>
      if Ascii.eqb c (ascii_of_nat 10) then nl :: file_lines rest
      else match file_lines rest with
           | [] => [String c EmptyString]
           | l :: ls => String c l :: ls
           end
  end.

(** ** The output path *)

Definition default_path : string :=
  "logs/sessions/enhanced_otel_306114a3-3d36-43bb-ac40-335fef6307ac.jsonl".

(** [sys.argv[1] if len(sys.argv) > 1 else default]. *)
Definition file_path (argv : list string) : string :=
  match argv !! 1%nat with
  | Some p => p
  | None => default_path
  end.

Definition yml_path (file_path : string) : string :=
  str_replace file_path ".jsonl" ".yml".

(** ** The environment *)

(** How writing to a path goes wrong, when it does: either
    [open(path, 'w')] raises and the file is not touched, or the file is
    opened, hence created or emptied, and [f.write] raises, leaving [remains]
    in it (nothing, when the text cannot be encoded). *)
Inductive fault : Type :=
  | OpenFails (e : exn)
  | WriteFails (e : exn) (remains : string).

(** The files the script can see, the paths whose writing fails, and what
    has been printed so far. *)
Record world : Type := World {
  files : gmap string string;
  faults : gmap string fault;
  stdout : string
}.

(** [print(s)]. *)
Definition print (s : string) (w : world) : world :=
  World (files w) (faults w) (stdout w +:+ s +:+ nl).

(** [with open(path, 'w') as f: f.write(content)]: the outcome and the
    world it leaves. *)
Definition write_file (path content : string) (w : world) : result unit * world :=
  match faults w !! path with
  | Some (OpenFails e) => (Raise e, w)
  | Some (WriteFails e remains) =>
      (Raise e, World (<[path := remains]> (files w)) (faults w) (stdout w))
  | None =>
      (Ok tt, World (<[path := content]> (files w)) (faults w) (stdout w))
  end.

(** ** Objects and references *)

(** The same script with Python's objects as they are: a dict or a list
    is an object in a store and a value refers to it, so that one object
    can be reached from several places and a change to it is seen from all
    of them. *)
Abbreviation loc := positive.

Inductive pval : Type :=
  | PNone
  | PBool (b : bool)
  | PInt (z : Z)
  | PFloat (f : spec_float)
  | PStr (s : string)
  | PRef (l : loc).

Inductive obj : Type :=
  | ODict (items : list (string * pval))
  | OList (elems : list pval).

Abbreviation heap := (gmap loc obj).

(** A new object: it gets a location that is not in use. *)
Definition new_object (o : obj) (h : heap) : loc * heap :=
  let l := fresh (dom h) in (l, <[l := o]> h).

Definition alloc_all (alloc : value -> heap -> pval * heap)
  : list value -> heap -> list pval * heap :=
  fix go vs h :=
    match vs with
    | [] => ([], h)
    | v :: vs =>
        let '(p, h) := alloc v h in
        let '(ps, h) := go vs h in (p :: ps, h)
    end.

Definition alloc_items (alloc : value -> heap -> pval * heap)
  : list (string * value) -> heap -> list (string * pval) * heap :=
  fix go d h :=
    match d with
    | [] => ([], h)
    | (k, v) :: d =>
        let '(p, h) := alloc v h in
        let '(items, h) := go d h in ((k, p) :: items, h)
    end.

(** The objects [json.loads] builds for a decoded value: new ones, for
    every list and dict in it. *)
Fixpoint alloc (v : value) (h : heap) : pval * heap :=
  match v with
  | VNone => (PNone, h)
  | VBool b => (PBool b, h)
  | VInt z => (PInt z, h)
  | VFloat f => (PFloat f, h)
  | VStr s => (PStr s, h)
  | VList vs =>
      let '(ps, h) := alloc_all alloc vs h in
      let '(l, h) := new_object (OList ps) h in (PRef l, h)
  | VDict d =>
      let '(items, h) := alloc_items alloc d h in
      let '(l, h) := new_object (ODict items) h in (PRef l, h)
  end.

(** [d.get(k)], [d.get(k, default)] and [d[k] = v] on the items of a dict
    object. *)
Fixpoint items_lookup (items : list (string * pval)) (k : string) : option pval :=
  match items with
  | [] => None
  | (k', p) :: rest => if String.eqb k' k then Some p else items_lookup rest k
  end.

Definition items_get (items : list (string * pval)) (k : string) (default : pval)
  : pval :=
  match items_lookup items k with
  | Some p => p
  | None => default
  end.

Fixpoint items_set (items : list (string * pval)) (k : string) (p : pval)
  : list (string * pval) :=
  match items with
  | [] => [(k, p)]
  | (k', p') :: rest =>
      if String.eqb k' k then (k', p) :: rest else (k', p') :: items_set rest k p
  end.

(** The items of [x], when [x] refers to a dict. *)
Definition dict_of (h : heap) (x : pval) : option (list (string * pval)) :=
  match x with
  | PRef l =>
      match h !! l with
      | Some (ODict items) => Some items
      | _ => None
      end
  | _ => None
  end.

(** [x.get(k, default)] for a [default] that is not an object. *)
Definition get_h (h : heap) (x : pval) (k : string) (default : pval)
  : result pval :=
  match dict_of h x with
  | Some items => Ok (items_get items k default)
  | None => Raise AttributeError
  end.

(** [x.get(k, {})]: the default is a new empty dict, built before the
    call. *)
Definition get_or_empty_h (h : heap) (x : pval) (k : string)
  : result (pval * heap) :=
  match dict_of h x with
  | Some items =>
      let '(l, h) := new_object (ODict []) h in
      Ok (items_get items k (PRef l), h)
  | None => Raise AttributeError
  end.

Definition eq_str_h (x : pval) (s : string) : bool :=
  match x with
  | PStr s' => String.eqb s' s
  | _ => false
  end.

Definition truthy_h (h : heap) (x : pval) : bool :=
  match x with
  | PNone => false
  | PBool b => b
  | PInt z => negb (z =? 0)
  | PFloat f => match f with S754_zero _ => false | _ => true end
  | PStr s => negb (String.eqb s "")
  | PRef l =>
      match h !! l with
      | Some (ODict []) => false
      | Some (OList []) => false
      | _ => true
      end
  end.

(** [r[k] = v] for the object at [r]. *)
Definition setitem_h (h : heap) (r : loc) (k : string) (v : pval) : result heap :=
  match h !! r with
  | Some (ODict items) => Ok (<[r := ODict (items_set items k v)]> h)
  | _ => Raise TypeError
  end.

(** The dict literal of a [ToolInput] event: a new object, whose fields
    are the very values found in the event. *)
Definition new_call_h (data tool_input : pval) (h : heap) : result (loc * heap) :=
  let* tool_name := get_h h tool_input "tool_name" PNone in
  let* start_time := get_h h data "timestamp" PNone in
  let* got := get_or_empty_h h tool_input "tool_args" in
  let '(input, h) := got in
  let* got := get_or_empty_h h data "timing" in
  let '(timing, h) := got in
  let* duration_ms := get_h h timing "step_timeuse_ms" (PInt 0) in
  Ok (new_object (ODict [("tool_name", tool_name); ("start_time", start_time);
                         ("input", input); ("duration_ms", duration_ms)]) h).

(** The two assignments to the last record: it is changed in place. *)
Definition attach_output_h (tool_calls : list loc) (tool_output : pval) (h : heap)
  : result (list loc * heap) :=
  match last tool_calls with
  | None => Ok (tool_calls, h)
  | Some call =>
      let* results := get_h h tool_output "results" (PStr "") in
      let* h := setitem_h h call "output" results in
      let* success := get_h h tool_output "success" (PBool false) in
      let* h := setitem_h h call "success" success in
      Ok (tool_calls, h)
  end.

(** The body of the loop on objects; [tool_calls] lists the records. *)
Definition process_h (tool_calls : list loc) (data : pval) (h : heap)
  : result (list loc * heap) :=
  let* event_type := get_h h data "event_type" PNone in
  if eq_str_h event_type "ToolInput" then
    let* got := get_or_empty_h h data "tool_input" in
    let '(tool_input, h) := got in
    if truthy_h h tool_input then
      let* made := new_call_h data tool_input h in
      let '(call, h) := made in
      Ok (tool_calls ++ [call], h)
    else Ok (tool_calls, h)
  else if eq_str_h event_type "ToolOutput" then
    let* got := get_or_empty_h h data "tool_output" in
    let '(tool_output, h) := got in
    attach_output_h tool_calls tool_output h
  else Ok (tool_calls, h).

(** ** Vocabulary of the specification *)

Definition is_dict (x : value) : bool :=
  match x with
  | VDict _ => true
  | _ => false
  end.

(** A [ToolInput] event carrying a non-empty [tool_input] mapping. *)
Definition is_trigger (data : value) : bool :=
  match data with
  | VDict d =>
      eq_str (dict_get d "event_type" VNone) "ToolInput" &&
      match dict_get d "tool_input" (VDict []) with
      | VDict (_ :: _) => true
      | _ => false
      end
  | _ => false
  end.

(** An event of the data model: a mapping whose [tool_input] is a mapping
    (or empty in any other way), and whose [timing] and [tool_output],
    when present, are mappings. *)
Definition well_formed (data : value) : bool :=
  match data with
  | VDict d =>
      let tool_input := dict_get d "tool_input" (VDict []) in
      (negb (truthy tool_input) || is_dict tool_input) &&
      is_dict (dict_get d "timing" (VDict [])) &&
      is_dict (dict_get d "tool_output" (VDict []))
  | _ => false
  end.

(** The specification's description of the record built for a triggering
    event: [tool_name] from [tool_input.tool_name], [start_time] from the
    event's [timestamp], [input] from [tool_input.tool_args] (default empty
    mapping) and [duration_ms] from [timing.step_timeuse_ms] (default 0). *)
Definition derived_from (call : dict) (data : value) : Prop :=
  exists d tool_input timing,
    data = VDict d /\
    dict_get d "tool_input" (VDict []) = VDict tool_input /\
    dict_get d "timing" (VDict []) = VDict timing /\
    dict_lookup call "tool_name" = Some (dict_get tool_input "tool_name" VNone) /\
    dict_lookup call "start_time" = Some (dict_get d "timestamp" VNone) /\
    dict_lookup call "input" = Some (dict_get tool_input "tool_args" (VDict [])) /\
    dict_lookup call "duration_ms" = Some (dict_get timing "step_timeuse_ms" (VInt 0)).

(** The fields of a record that the YML document shows. *)
Definition shown_fields : list string :=
  ["tool_name"; "start_time"; "input"; "duration_ms"].

(** Two records agree on every field the document shows. *)
Definition same_shown_fields (call call' : dict) : Prop :=
  Forall (fun k => dict_lookup call k = dict_lookup call' k) shown_fields.

(** ** Vocabulary of the further properties *)

(** The events the loop body runs through on, given the records so far: a
    mapping; for a [ToolInput] event with a true [tool_input], [tool_input]
    and [timing] are mappings; for a [ToolOutput] event met with a record
    in the list, [tool_output] is a mapping. *)
Definition accepted (tool_calls : list dict) (data : value) : bool :=
  match data with
  | VDict d =>
      if eq_str (dict_get d "event_type" VNone) "ToolInput" then
        let tool_input := dict_get d "tool_input" (VDict []) in
        negb (truthy tool_input) ||
        (is_dict tool_input && is_dict (dict_get d "timing" (VDict [])))
      else if eq_str (dict_get d "event_type" VNone) "ToolOutput" then
        match tool_calls with
        | [] => true
        | _ :: _ => is_dict (dict_get d "tool_output" (VDict []))
        end
      else true
  | _ => false
  end.

(** The event is a mapping whose [event_type] is [ToolOutput]. *)
Definition is_ToolOutput (data : value) : bool :=
  match data with
  | VDict d => eq_str (dict_get d "event_type" VNone) "ToolOutput"
  | _ => false
  end.

(** [old] occurs in [s]. *)
Definition occurs (old s : string) : Prop :=
  exists a b, s = a +:+ old +:+ b.

(** [old] occurs in [s], as a test. *)
Fixpoint contains (old s : string) : bool :=
  String.prefix old s ||
  match s with
  | EmptyString => false
  | String _ rest => contains old rest
  end.

(** The list [tool_calls'] continues [tool_calls]: it is at least as long,
    every record of [tool_calls] but the last is still in its place
    unchanged, and the last one still shows the same four fields. *)
Definition continues (tool_calls tool_calls' : list dict) : Prop :=
  (length tool_calls <= length tool_calls')%nat /\
  (forall i, (S i < length tool_calls)%nat -> tool_calls' !! i = tool_calls !! i) /\
  (forall i call, tool_calls !! i = Some call ->
                  exists call', tool_calls' !! i = Some call' /\
                                same_shown_fields call' call).

(** ** Objects read as values *)

(** The value [p] reads as [v] in the store [h], through objects of [D]
    only: a reference reads as the list or dict it refers to, item by
    item. *)
Inductive repr (D : gset loc) (h : heap) : pval -> value -> Prop :=
  | repr_None : repr D h PNone VNone
  | repr_Bool b : repr D h (PBool b) (VBool b)
  | repr_Int z : repr D h (PInt z) (VInt z)
  | repr_Float f : repr D h (PFloat f) (VFloat f)
  | repr_Str s : repr D h (PStr s) (VStr s)
  | repr_List l ps vs :
      l ∈ D -> h !! l = Some (OList ps) ->
      Forall2 (repr D h) ps vs ->
      repr D h (PRef l) (VList vs)
  | repr_Dict l items d :
      l ∈ D -> h !! l = Some (ODict items) ->
      Forall2 (fun kp kv => kp.1 = kv.1 /\ repr D h kp.2 kv.2) items d ->
      repr D h (PRef l) (VDict d).

(** The items read, key by key and in order, as the dict [d]. *)
Definition items_repr (D : gset loc) (h : heap)
           (items : list (string * pval)) (d : dict) : Prop :=
  Forall2 (fun kp kv => kp.1 = kv.1 /\ repr D h kp.2 kv.2) items d.

(** The record at [r] reads, field for field, as [call]. *)
Definition record_reads (h : heap) (r : loc) (call : dict) : Prop :=
  exists items, h !! r = Some (ODict items) /\ items_repr (dom h) h items call.

(** The records at [locs] read as [calls], and are apart from the objects
    of [I], which their fields go through: the state of the loop on
    objects against the state of the loop on values. *)
Definition records_repr (I : gset loc) (h : heap)
           (locs : list loc) (calls : list dict) : Prop :=
  I ⊆ dom h /\
  NoDup locs /\
  (forall r, r ∈ locs -> r ∉ I) /\
  Forall2 (fun r call =>
             exists items, h !! r = Some (ODict items) /\ items_repr I h items call)
          locs calls.

(** ** The scenario of the specification *)

(** The three events of the scenario, as [json.loads] decodes them. *)
Definition search_input : value :=
  VDict [("event_type", VStr "ToolInput"); ("timestamp", VStr "t1");
         ("tool_input", VDict [("tool_name", VStr "search");
                               ("tool_args", VDict [("q", VStr "cats")])]);
         ("timing", VDict [("step_timeuse_ms", VInt 120)])].

Definition search_output : value :=
  VDict [("event_type", VStr "ToolOutput");
         ("tool_output", VDict [("results", VStr "3 hits");
                                ("success", VBool true)])].

Definition fetch_input : value :=
  VDict [("event_type", VStr "ToolInput"); ("timestamp", VStr "t2");
         ("tool_input", VDict [("tool_name", VStr "fetch");
                               ("tool_args", VDict [])])].

(** A [ToolInput] event with arguments but neither a tool name, a
    timestamp nor a timing. *)
Definition anonymous_input : dict :=
  [("event_type", VStr "ToolInput");
   ("tool_input", VDict [("tool_args", VDict [])])].

(** A [ToolInput] event with a tool name but neither arguments nor a
    timing. *)
Definition bare_input : dict :=
  [("event_type", VStr "ToolInput");
   ("tool_input", VDict [("tool_name", VStr "ls")])].

(** A decoder for a log written in shorthand: one word per line. *)
Definition scenario_loads (line : string) : result value :=
  if String.eqb line ("search-input" +:+ nl) then Ok search_input
  else if String.eqb line ("search-output" +:+ nl) then Ok search_output
  else if String.eqb line ("fetch-input" +:+ nl) then Ok fetch_input
  else if String.eqb line ("anonymous-input" +:+ nl) then Ok (VDict anonymous_input)
  else Raise JSONDecodeError.

Definition scenario_log : string :=
  "search-input" +:+ nl +:+ "search-output" +:+ nl +:+ "fetch-input" +:+ nl.

(** The same log with its second line damaged. *)
Definition damaged_log : string :=
  "search-input" +:+ nl +:+ "{" +:+ nl +:+ "fetch-input" +:+ nl.

(** [repr] of a string without quotes, backslashes or control characters. *)
Definition plain_str_repr (s : string) : string := "'" +:+ s +:+ "'".

(** [repr] of the floats that do not need digits; the scenario has none. *)
Definition special_float_repr (f : spec_float) : string :=
  match f with
  | S754_zero false => "0.0"
  | S754_zero true => "-0.0"
  | S754_infinity false => "inf"
  | S754_infinity true => "-inf"
  | S754_nan => "nan"
  | S754_finite _ _ _ => "?"
  end.

Definition scenario_world : world :=
  World {["run.jsonl" := scenario_log; "bad.jsonl" := damaged_log]} ∅ "".

(** The scenario's world when the document cannot be encoded: the
    destination is opened, and [f.write] raises before anything is
    written. *)
Definition unencodable_world : world :=
  World {["run.jsonl" := scenario_log]}
        {["run.yml" := WriteFails UnicodeEncodeError ""]} "".


Section Script.

(** [json.loads], [repr] of a float and [repr] of a string belong to
    Python, not to the script. *)
Variable json_loads : string -> result value.
Variable float_repr : spec_float -> string.
Variable str_repr : string -> string.

(** *** Extraction *)

(** The [for line in f] loop, started with [tool_calls]. *)
Fixpoint extract_from (tool_calls : list dict) (lines : list string)
  : result (list dict) :=
  match lines with
  | [] => Ok tool_calls
  | line :: rest =>
      let* data := json_loads line in
      let* tool_calls := process tool_calls data in
      extract_from tool_calls rest
  end.

Definition extract (lines : list string) : result (list dict) :=
  extract_from [] lines.

(** *** Rendering *)

(** [repr(x)]. *)
Fixpoint py_repr (x : value) : string :=
  match x with
  | VNone => "None"
  | VBool true => "True"
  | VBool false => "False"
  | VInt z => int_str z
  | VFloat f => float_repr f
  | VStr s => str_repr s
  | VList l => "[" +:+ String.concat ", " (List.map py_repr l) +:+ "]"
  | VDict d =>
      "{" +:+ String.concat ", "
                (List.map (fun kv => match kv with
                                     | (k, v) => str_repr k +:+ ": " +:+ py_repr v
                                     end) d) +:+ "}"
  end.

(** What an f-string puts for [{x}]: [str(x)], which is [x] itself for a
    string and [repr(x)] for the other values. *)
Definition py_str (x : value) : string :=
  match x with
  | VStr s => s
  | _ => py_repr x
  end.

(** One line of the console summary, [i] counting from 0. *)
Definition console_line (i : nat) (call : dict) : string :=
  "  " +:+ int_str (Z.of_nat (i + 1)) +:+ ". "
  +:+ py_str (dict_get call "tool_name" (VStr "Unknown"))
  +:+ " - " +:+ py_str (dict_get call "input" (VDict [])).

Fixpoint print_calls (i : nat) (tool_calls : list dict) (w : world) : world :=
  match tool_calls with
  | [] => w
  | call :: rest => print_calls (S i) rest (print (console_line i call) w)
  end.

Definition print_summary (tool_calls : list dict) (w : world) : world :=
  print_calls 0 tool_calls
    (print ("Found " +:+ int_str (Z.of_nat (length tool_calls)) +:+ " tool calls:") w).

Definition yml_header : string :=
  "session_id: 306114a3-3d36-43bb-ac40-335fef6307ac" +:+ nl +:+
  "tool_calls:" +:+ nl.

Definition yml_entry (call : dict) : string :=
  "  - tool_name: " +:+ py_str (dict_get call "tool_name" (VStr "Unknown")) +:+ nl +:+
  "    start_time: " +:+ dquote +:+ py_str (dict_get call "start_time" (VStr "")) +:+ dquote +:+ nl +:+
  "    input: " +:+ py_str (dict_get call "input" (VDict [])) +:+ nl +:+
  "    duration_ms: " +:+ py_str (dict_get call "duration_ms" (VInt 0)) +:+ nl.

(** [yml_content], built with [+=] over the calls. *)
Definition yml_content (tool_calls : list dict) : string :=
  fold_left (fun acc call => acc +:+ yml_entry call) tool_calls yml_header.

(** *** The whole script *)

(** Runs the script: the outcome and the world it leaves behind.  An
    exception leaves the world as it was when it was raised. *)
Definition main (argv : list string) (w : world) : result unit * world :=
  let file_path := file_path argv in
  match files w !! file_path with
  | None => (Raise FileNotFoundError, w)
  | Some text =>
      match extract (file_lines text) with
      | Raise e => (Raise e, w)
      | Ok tool_calls =>
          let w := print_summary tool_calls w in
          let yml_content := yml_content tool_calls in
          let yml_path := yml_path file_path in
          match write_file yml_path yml_content w with
          | (Raise e, w) => (Raise e, w)
          | (Ok _, w) => (Ok tt, print (nl +:+ "Converted to: " +:+ yml_path) w)
          end
      end
  end.

(** The loop when reading can fail: iterating over the file yields lines
    until, possibly, the read itself raises. *)
Fixpoint extract_reading (tool_calls : list dict) (yielded : list (result string))
  : result (list dict) :=
  match yielded with
  | [] => Ok tool_calls
  | Raise e :: _ => Raise e
  | Ok line :: rest =>
      let* data := json_loads line in
      let* tool_calls := process tool_calls data in
      extract_reading tool_calls rest
  end.

(** *** Extraction on objects *)

(** The loop on objects: each line is decoded into new objects. *)
Fixpoint extract_from_h (tool_calls : list loc) (lines : list string) (h : heap)
  : result (list loc * heap) :=
  match lines with
  | [] => Ok (tool_calls, h)
  | line :: rest =>
      let* v := json_loads line in
      let '(data, h) := alloc v h in
      let* next := process_h tool_calls data h in
      let '(tool_calls, h) := next in
      extract_from_h tool_calls rest h
  end.

(** [tool_calls = []], then the loop. *)
Definition extract_h (lines : list string) (h : heap) : result (list loc * heap) :=
  extract_from_h [] lines h.

(** * Properties *)

(** ** Dicts *)

Lemma dict_lookup_set (d : dict) (k k' : string) (v : value) :
  dict_lookup (dict_set d k v) k' =
  if String.eqb k k' then Some v else dict_lookup d k'.
Proof.
  induction d as [|[k0 v0] rest IH]; simpl.
  - reflexivity.
  - destruct (String.eqb k0 k) eqn:E0; simpl.
    + apply String.eqb_eq in E0; subst k0.
      destruct (String.eqb k k'); reflexivity.
    + rewrite IH. destruct (String.eqb k0 k') eqn:E1; [|reflexivity].
      apply String.eqb_eq in E1; subst k0.
      rewrite String.eqb_sym, E0. reflexivity.
Qed.

Lemma dict_lookup_set_eq (d : dict) (k : string) (v : value) :
  dict_lookup (dict_set d k v) k = Some v.
Proof. rewrite dict_lookup_set, String.eqb_refl. reflexivity. Qed.

Lemma dict_lookup_set_ne (d : dict) (k k' : string) (v : value) :
  k' <> k -> dict_lookup (dict_set d k v) k' = dict_lookup d k'.
Proof.
  intros Hne. rewrite dict_lookup_set.
  destruct (String.eqb k k') eqn:E; [|reflexivity].
  apply String.eqb_eq in E. congruence.
Qed.

Lemma dict_get_absent (d : dict) (k : string) (default : value) :
  dict_lookup d k = None -> dict_get d k default = default.
Proof. unfold dict_get. intros ->. reflexivity. Qed.

Lemma dict_get_present (d : dict) (k : string) (default v : value) :
  dict_lookup d k = Some v -> dict_get d k default = v.
Proof. unfold dict_get. intros ->. reflexivity. Qed.

(** ** Lists *)

Lemma set_last_snoc {A : Type} (init : list A) (x y : A) :
  <[pred (length (init ++ [x])) := y]> (init ++ [x]) = init ++ [y].
Proof.
  rewrite length_app. simpl.
  replace (pred (length init + 1)%nat) with (length init + 0)%nat by lia.
  rewrite insert_app_r. reflexivity.
Qed.

(** ** One iteration of the loop *)

Lemma truthy_dict (d : dict) : truthy (VDict d) = true <-> d <> [].
Proof. destruct d; simpl; split; congruence. Qed.

Lemma is_trigger_dict (d tool_input : dict) :
  eq_str (dict_get d "event_type" VNone) "ToolInput" = true ->
  dict_get d "tool_input" (VDict []) = VDict tool_input ->
  is_trigger (VDict d) = truthy (VDict tool_input).
Proof.
  intros Het Hti. unfold is_trigger. rewrite Het, Hti.
  destruct tool_input; reflexivity.
Qed.

(** A [ToolInput] event with a non-empty [tool_input] mapping and a
    [timing] mapping appends the record of [new_call]. *)
Lemma process_ToolInput (d tool_input timing : dict) (tool_calls : list dict) :
  eq_str (dict_get d "event_type" VNone) "ToolInput" = true ->
  dict_get d "tool_input" (VDict []) = VDict tool_input ->
  tool_input <> [] ->
  dict_get d "timing" (VDict []) = VDict timing ->
  process tool_calls (VDict d) =
  Ok (tool_calls ++
      [[("tool_name", dict_get tool_input "tool_name" VNone);
        ("start_time", dict_get d "timestamp" VNone);
        ("input", dict_get tool_input "tool_args" (VDict []));
        ("duration_ms", dict_get timing "step_timeuse_ms" (VInt 0))]]).
Proof.
  intros Het Hti Hne Htm. unfold process. simpl. rewrite Het, Hti. simpl.
  destruct tool_input as [|item rest]; [congruence|].
  unfold new_call. simpl. rewrite Htm. reflexivity.
Qed.

(** A [ToolInput] event whose [tool_input] is empty adds nothing. *)
Lemma process_ToolInput_empty (d : dict) (tool_calls : list dict) :
  eq_str (dict_get d "event_type" VNone) "ToolInput" = true ->
  truthy (dict_get d "tool_input" (VDict [])) = false ->
  process tool_calls (VDict d) = Ok tool_calls.
Proof.
  intros Het Hti. unfold process. simpl. rewrite Het. simpl. rewrite Hti.
  reflexivity.
Qed.

Lemma eq_str_exclusive (x : value) (s s' : string) :
  eq_str x s = true -> s <> s' -> eq_str x s' = false.
Proof.
  destruct x; simpl; try discriminate.
  intros H Hne. apply String.eqb_eq in H. subst.
  apply String.eqb_neq. exact Hne.
Qed.

(** A [ToolOutput] event with a [tool_output] mapping rewrites the last
    record. *)
Lemma process_ToolOutput (d tool_output : dict) (init : list dict) (call : dict) :
  eq_str (dict_get d "event_type" VNone) "ToolOutput" = true ->
  dict_get d "tool_output" (VDict []) = VDict tool_output ->
  process (init ++ [call]) (VDict d) =
  Ok (init ++
      [dict_set (dict_set call "output" (dict_get tool_output "results" (VStr "")))
         "success" (dict_get tool_output "success" (VBool false))]).
Proof.
  intros Het Hto. unfold process. simpl.
  rewrite (eq_str_exclusive _ _ "ToolInput" Het) by discriminate.
  rewrite Het. simpl. rewrite Hto. unfold attach_output.
  rewrite last_snoc. simpl. rewrite set_last_snoc. reflexivity.
Qed.

(** A [ToolOutput] event met while the list is empty is dropped, whatever
    its [tool_output] is. *)
Lemma process_ToolOutput_nil (d : dict) :
  eq_str (dict_get d "event_type" VNone) "ToolOutput" = true ->
  process [] (VDict d) = Ok [].
Proof.
  intros Het. unfold process. simpl.
  rewrite (eq_str_exclusive _ _ "ToolInput" Het) by discriminate.
  rewrite Het. reflexivity.
Qed.

(** An event of any other type is skipped. *)
Lemma process_other (d : dict) (tool_calls : list dict) :
  eq_str (dict_get d "event_type" VNone) "ToolInput" = false ->
  eq_str (dict_get d "event_type" VNone) "ToolOutput" = false ->
  process tool_calls (VDict d) = Ok tool_calls.
Proof. intros H1 H2. unfold process. simpl. rewrite H1, H2. reflexivity. Qed.

(** C2. For a [ToolOutput] event: when the list of records is empty the
    event is dropped and the list stays empty; when the list has a last
    record, that record (and no other) gets [output] set to
    [tool_output.results] (default empty string) and [success] set to
    [tool_output.success] (default false), whatever it held under these
    keys before, and keeps its other fields. *)
Theorem ToolOutput_sets_last_record (d : dict) (tool_calls : list dict) :
  eq_str (dict_get d "event_type" VNone) "ToolOutput" = true ->
  (tool_calls = [] -> process tool_calls (VDict d) = Ok []) /\
  (forall init call tool_output,
      tool_calls = init ++ [call] ->
      dict_get d "tool_output" (VDict []) = VDict tool_output ->
      exists call',
        process tool_calls (VDict d) = Ok (init ++ [call']) /\
        dict_lookup call' "output" = Some (dict_get tool_output "results" (VStr "")) /\
        dict_lookup call' "success" = Some (dict_get tool_output "success" (VBool false)) /\
        forall k, k <> "output" -> k <> "success" ->
                  dict_lookup call' k = dict_lookup call k).
Proof.
  intros Het. split.
  - intros ->. apply process_ToolOutput_nil. exact Het.
  - intros init call tool_output -> Hto.
    eexists. split; [apply process_ToolOutput; eassumption|].
    split; [|split].
    + rewrite dict_lookup_set_ne by discriminate. apply dict_lookup_set_eq.
    + apply dict_lookup_set_eq.
    + intros k Ho Hs. rewrite !dict_lookup_set_ne by assumption. reflexivity.
Qed.

(** C6. For a [ToolInput] event with a non-empty [tool_input] mapping: if
    the event has no [timing], or its [timing] mapping has no
    [step_timeuse_ms], the record appended has [duration_ms = 0]; if
    [tool_input] has no [tool_args], the record appended has the empty
    mapping as [input]. *)
Theorem ToolInput_defaults (d tool_input : dict) (tool_calls : list dict) :
  eq_str (dict_get d "event_type" VNone) "ToolInput" = true ->
  dict_get d "tool_input" (VDict []) = VDict tool_input ->
  tool_input <> [] ->
  ((dict_lookup d "timing" = None \/
    exists timing, dict_lookup d "timing" = Some (VDict timing) /\
                   dict_lookup timing "step_timeuse_ms" = None) ->
   exists call,
     process tool_calls (VDict d) = Ok (tool_calls ++ [call]) /\
     dict_lookup call "duration_ms" = Some (VInt 0)) /\
  (dict_lookup tool_input "tool_args" = None ->
   forall timing, dict_get d "timing" (VDict []) = VDict timing ->
   exists call,
     process tool_calls (VDict d) = Ok (tool_calls ++ [call]) /\
     dict_lookup call "input" = Some (VDict [])).
Proof.
  intros Het Hti Hne. split.
  - intros Htm.
    assert (exists timing, dict_get d "timing" (VDict []) = VDict timing /\
                           dict_lookup timing "step_timeuse_ms" = None)
      as (timing & Hget & Hstep).
    { destruct Htm as [Habs | (timing & Hsome & Hstep)].
      - exists []. split; [apply dict_get_absent; exact Habs | reflexivity].
      - exists timing. split; [apply dict_get_present; exact Hsome | exact Hstep]. }
    eexists. split; [apply (process_ToolInput d tool_input timing); assumption|].
    simpl. rewrite (dict_get_absent _ _ _ Hstep). reflexivity.
  - intros Hargs timing Hget.
    eexists. split; [apply (process_ToolInput d tool_input timing); assumption|].
    simpl. rewrite (dict_get_absent _ _ _ Hargs). reflexivity.
Qed.

(** ** Strings *)

Lemma append_cons (c : ascii) (s1 s2 : string) :
  String c s1 +:+ s2 = String c (s1 +:+ s2).
Proof. reflexivity. Qed.

Lemma append_assoc (s1 s2 s3 : string) : (s1 +:+ s2) +:+ s3 = s1 +:+ (s2 +:+ s3).
Proof.
  induction s1 as [|c s1 IH]; [reflexivity|].
  rewrite !append_cons, IH. reflexivity.
Qed.

Lemma append_nil_r (s : string) : s +:+ "" = s.
Proof.
  induction s as [|c s IH]; [reflexivity|].
  rewrite append_cons, IH. reflexivity.
Qed.

(** ** Records and the events they come from *)

Lemma derived_from_new_call (d tool_input timing : dict) :
  dict_get d "tool_input" (VDict []) = VDict tool_input ->
  dict_get d "timing" (VDict []) = VDict timing ->
  derived_from
    [("tool_name", dict_get tool_input "tool_name" VNone);
     ("start_time", dict_get d "timestamp" VNone);
     ("input", dict_get tool_input "tool_args" (VDict []));
     ("duration_ms", dict_get timing "step_timeuse_ms" (VInt 0))]
    (VDict d).
Proof.
  intros Hti Htm. exists d, tool_input, timing. repeat split; assumption.
Qed.

(** Attaching an output leaves the record derived from the same event. *)
Lemma derived_from_set_output (call : dict) (data results success : value) :
  derived_from call data ->
  derived_from (dict_set (dict_set call "output" results) "success" success) data.
Proof.
  intros (d & tool_input & timing & Hd & Hti & Htm & H1 & H2 & H3 & H4).
  exists d, tool_input, timing.
  rewrite !dict_lookup_set_ne by discriminate.
  repeat split; assumption.
Qed.

Lemma is_trigger_ToolOutput (d : dict) :
  eq_str (dict_get d "event_type" VNone) "ToolOutput" = true ->
  is_trigger (VDict d) = false.
Proof.
  intros Het. unfold is_trigger.
  rewrite (eq_str_exclusive _ _ "ToolInput" Het) by discriminate. reflexivity.
Qed.

Lemma is_trigger_other (d : dict) :
  eq_str (dict_get d "event_type" VNone) "ToolInput" = false ->
  is_trigger (VDict d) = false.
Proof. intros Het. unfold is_trigger. rewrite Het. reflexivity. Qed.

Lemma is_trigger_empty (d : dict) :
  truthy (dict_get d "tool_input" (VDict [])) = false ->
  is_trigger (VDict d) = false.
Proof.
  intros Hf. unfold is_trigger.
  destruct (dict_get d "tool_input" (VDict [])) as [| | | | | |[|item rest]];
    try (apply andb_false_r). discriminate.
Qed.

(** One iteration on a well-formed event: it does not raise, and the
    records stay in step with the triggering events seen so far. *)
Lemma process_well_formed (data : value) (tool_calls : list dict) (seen : list value) :
  well_formed data = true ->
  Forall2 derived_from tool_calls seen ->
  exists tool_calls',
    process tool_calls data = Ok tool_calls' /\
    Forall2 derived_from tool_calls'
            (seen ++ if is_trigger data then [data] else []).
Proof.
  intros Hwf Hinv. destruct data as [| | | | | |d]; try discriminate.
  simpl in Hwf. apply andb_prop in Hwf as [Hwf Hto]. apply andb_prop in Hwf as [Hti Htm].
  destruct (dict_get d "timing" (VDict [])) as [| | | | | |timing] eqn:Etm;
    try discriminate.
  destruct (eq_str (dict_get d "event_type" VNone) "ToolInput") eqn:Ein.
  - destruct (truthy (dict_get d "tool_input" (VDict []))) eqn:Etr.
    + simpl in Hti.
      destruct (dict_get d "tool_input" (VDict [])) as [| | | | | |tool_input] eqn:Eti;
        try discriminate.
      apply truthy_dict in Etr.
      eexists. split; [apply (process_ToolInput d tool_input timing); assumption|].
      rewrite (is_trigger_dict d tool_input Ein Eti).
      replace (truthy (VDict tool_input)) with true
        by (symmetry; apply truthy_dict; exact Etr).
      apply Forall2_app; [exact Hinv|].
      constructor; [|constructor].
      apply derived_from_new_call; assumption.
    + exists tool_calls. split; [apply process_ToolInput_empty; assumption|].
      rewrite (is_trigger_empty d Etr), app_nil_r. exact Hinv.
  - destruct (eq_str (dict_get d "event_type" VNone) "ToolOutput") eqn:Eout.
    + rewrite (is_trigger_ToolOutput d Eout), app_nil_r.
      destruct (dict_get d "tool_output" (VDict [])) as [| | | | | |tool_output] eqn:Eto;
        try discriminate.
      destruct tool_calls as [|call0 calls0] using rev_ind.
      * exists []. split; [apply process_ToolOutput_nil; exact Eout | exact Hinv].
      * eexists. split; [apply (process_ToolOutput d tool_output); assumption|].
        apply Forall2_app_inv_l in Hinv as (seen1 & seen2 & H1 & H2 & ->).
        apply Forall2_app; [exact H1|].
        inversion H2 as [|c e cs es Hce Hrest]; subst.
        inversion Hrest; subst.
        constructor; [|constructor].
        apply derived_from_set_output. exact Hce.
    + exists tool_calls. split; [apply process_other; assumption|].
      rewrite (is_trigger_other d Ein), app_nil_r. exact Hinv.
Qed.

(** *** Records against events *)

Lemma extract_from_well_formed (lines : list string) (events : list value) :
  Forall2 (fun line data => json_loads line = Ok data) lines events ->
  Forall (fun data => well_formed data = true) events ->
  forall tool_calls seen,
    Forall2 derived_from tool_calls seen ->
    exists tool_calls',
      extract_from tool_calls lines = Ok tool_calls' /\
      Forall2 derived_from tool_calls' (seen ++ List.filter is_trigger events).
Proof.
  induction 1 as [|line data lines events Hload Hrest IH]; intros Hwf calls seen Hinv.
  - exists calls. simpl. rewrite app_nil_r. split; [reflexivity | exact Hinv].
  - inversion Hwf as [|x xs Hwf1 Hwf2]; subst.
    destruct (process_well_formed data calls seen Hwf1 Hinv) as (calls1 & Hproc & Hinv1).
    destruct (IH Hwf2 calls1 _ Hinv1) as (calls2 & Hext & Hinv2).
    exists calls2. simpl. rewrite Hload. simpl. rewrite Hproc. simpl.
    split; [exact Hext|].
    destruct (is_trigger data); simpl in *.
    + rewrite <- List.app_assoc in Hinv2. exact Hinv2.
    + rewrite app_nil_r in Hinv2. exact Hinv2.
Qed.

(** C1. For a stream whose lines all decode to well-formed events,
    extraction returns a list with exactly one record per [ToolInput]
    event carrying a non-empty [tool_input] mapping; the i-th record is
    the one derived from the i-th such event, so the order is that of the
    triggering events, and no other event contributes a record. *)
Theorem extract_one_record_per_trigger (lines : list string) (events : list value) :
  Forall2 (fun line data => json_loads line = Ok data) lines events ->
  Forall (fun data => well_formed data = true) events ->
  exists tool_calls,
    extract lines = Ok tool_calls /\
    length tool_calls = length (List.filter is_trigger events) /\
    Forall2 derived_from tool_calls (List.filter is_trigger events).
Proof.
  intros Hload Hwf.
  destruct (extract_from_well_formed lines events Hload Hwf [] [])
    as (tool_calls & Hext & Hinv); [constructor|].
  exists tool_calls. split; [exact Hext|]. split; [|exact Hinv].
  eapply Forall2_length. exact Hinv.
Qed.

(** *** The console leaves the files alone *)






(** *** The document *)

Lemma yml_content_from (tool_calls : list dict) :
  forall acc,
    fold_left (fun acc call => acc +:+ yml_entry call) tool_calls acc =
    acc +:+ fold_right String.append "" (List.map yml_entry tool_calls).
Proof.
  induction tool_calls as [|call rest IH]; intros acc; simpl.
  - symmetry. apply append_nil_r.
  - rewrite IH. apply append_assoc.
Qed.

(** The document is the header followed by the entries, one per record,
    in the order of the records. *)
Lemma yml_content_layout (tool_calls : list dict) :
  yml_content tool_calls =
  yml_header +:+ fold_right String.append "" (List.map yml_entry tool_calls).
Proof. apply yml_content_from. Qed.

Lemma dict_get_same_lookup (call call' : dict) (k : string) (default : value) :
  dict_lookup call k = dict_lookup call' k ->
  dict_get call k default = dict_get call' k default.
Proof. unfold dict_get. intros ->. reflexivity. Qed.

(** An entry is a function of the four fields it shows. *)
Lemma yml_entry_same_shown_fields (call call' : dict) :
  same_shown_fields call call' -> yml_entry call = yml_entry call'.
Proof.
  intros H. unfold same_shown_fields, shown_fields in H.
  inversion H as [|k1 l1 H1 T1]; subst.
  inversion T1 as [|k2 l2 H2 T2]; subst.
  inversion T2 as [|k3 l3 H3 T3]; subst.
  inversion T3 as [|k4 l4 H4 T4]; subst.
  unfold yml_entry.
  rewrite (dict_get_same_lookup _ _ _ (VStr "Unknown") H1).
  rewrite (dict_get_same_lookup _ _ _ (VStr "") H2).
  rewrite (dict_get_same_lookup _ _ _ (VDict []) H3).
  rewrite (dict_get_same_lookup _ _ _ (VInt 0) H4).
  reflexivity.
Qed.

Lemma same_shown_fields_set_output (call : dict) (results success : value) :
  same_shown_fields
    (dict_set (dict_set call "output" results) "success" success) call.
Proof.
  unfold same_shown_fields, shown_fields.
  repeat constructor; rewrite !dict_lookup_set_ne by discriminate; reflexivity.
Qed.

(** C8. The document is the header followed by one entry per record, in
    order; an entry consists of the four lines [tool_name], [start_time],
    [input] and [duration_ms], in that order, holding the values of these
    four fields; and nothing else of a record reaches the document: two
    lists of records that agree on these four fields give the same
    document, so [output] and [success] never show, set or not. *)
Theorem yml_content_shows_four_fields (tool_calls : list dict) :
  yml_content tool_calls =
    yml_header +:+ fold_right String.append "" (List.map yml_entry tool_calls) /\
  (forall call tool_name start_time input duration_ms,
      dict_lookup call "tool_name" = Some tool_name ->
      dict_lookup call "start_time" = Some start_time ->
      dict_lookup call "input" = Some input ->
      dict_lookup call "duration_ms" = Some duration_ms ->
      yml_entry call =
        "  - tool_name: " +:+ py_str tool_name +:+ nl +:+
        "    start_time: " +:+ dquote +:+ py_str start_time +:+ dquote +:+ nl +:+
        "    input: " +:+ py_str input +:+ nl +:+
        "    duration_ms: " +:+ py_str duration_ms +:+ nl) /\
  (forall tool_calls',
      Forall2 same_shown_fields tool_calls' tool_calls ->
      yml_content tool_calls' = yml_content tool_calls) /\
  (forall call results success,
      yml_entry (dict_set (dict_set call "output" results) "success" success) =
      yml_entry call).
Proof.
  split; [apply yml_content_layout|]. split; [|split].
  - intros call a b c e Ha Hb Hc He. unfold yml_entry.
    rewrite (dict_get_present _ _ _ _ Ha), (dict_get_present _ _ _ _ Hb),
      (dict_get_present _ _ _ _ Hc), (dict_get_present _ _ _ _ He).
    reflexivity.
  - intros tool_calls' H. rewrite !yml_content_layout. f_equal.
    induction H as [|c c' cs cs' Hc Hcs IH]; simpl; [reflexivity|].
    rewrite (yml_entry_same_shown_fields c c' Hc), IH. reflexivity.
  - intros call results success. apply yml_entry_same_shown_fields.
    apply same_shown_fields_set_output.
Qed.

(** The first line of the document. *)
Lemma yml_content_first_line (tool_calls : list dict) :
  exists body,
    yml_content tool_calls =
    "session_id: 306114a3-3d36-43bb-ac40-335fef6307ac" +:+ nl +:+ body.
Proof.
  exists ("tool_calls:" +:+ nl +:+
          fold_right String.append "" (List.map yml_entry tool_calls)).
  rewrite yml_content_layout. unfold yml_header.
  rewrite !append_assoc. reflexivity.
Qed.

(** *** The whole run *)

(** A run that succeeds has read the source file, extracted its records
    and written their document at [yml_path]. *)
Lemma main_success (argv : list string) (w w' : world) :
  main argv w = (Ok tt, w') ->
  exists text tool_calls,
    files w !! file_path argv = Some text /\
    extract (file_lines text) = Ok tool_calls /\
    files w' !! yml_path (file_path argv) = Some (yml_content tool_calls).
Proof.
  unfold main. intros H.
  destruct (files w !! file_path argv) as [text|] eqn:Efile; [|discriminate].
  destruct (extract (file_lines text)) as [tool_calls|e] eqn:Eext;
    [|discriminate].
  unfold write_file in H.
  destruct (faults (print_summary tool_calls w) !! yml_path (file_path argv))
    as [[e|e remains]|]; try discriminate.
  injection H as <-.
  exists text, tool_calls. split; [reflexivity|]. split; [exact Eext|].
  simpl. apply lookup_insert_eq.
Qed.

(** C10. The document starts with the line
    [session_id: 306114a3-3d36-43bb-ac40-335fef6307ac], whatever the
    records are; so does the file a successful run writes, whatever the
    command line and the contents of the source file are. *)
Theorem session_id_is_fixed :
  (forall tool_calls, exists body,
      yml_content tool_calls =
      "session_id: 306114a3-3d36-43bb-ac40-335fef6307ac" +:+ nl +:+ body) /\
  (forall argv w w',
      main argv w = (Ok tt, w') ->
      exists body,
        files w' !! yml_path (file_path argv) =
        Some ("session_id: 306114a3-3d36-43bb-ac40-335fef6307ac" +:+ nl +:+ body)).
Proof.
  split; [apply yml_content_first_line|].
  intros argv w w' H.
  destruct (main_success argv w w' H) as (text & tool_calls & _ & _ & Hdoc).
  destruct (yml_content_first_line tool_calls) as (body & Hbody).
  exists body. rewrite Hdoc, Hbody. reflexivity.
Qed.

(** *** The output path *)

Lemma prefix_append (p s : string) :
  String.prefix p s = true -> exists rest, s = p +:+ rest.
Proof.
  revert s. induction p as [|a p IH]; intros s H.
  - exists s. reflexivity.
  - destruct s as [|b s]; simpl in H; [discriminate|].
    destruct (ascii_dec a b) as [->|]; [|discriminate].
    destruct (IH s H) as (rest & ->). exists rest. reflexivity.
Qed.

Lemma length_append (s1 s2 : string) :
  String.length (s1 +:+ s2) = (String.length s1 + String.length s2)%nat.
Proof.
  induction s1 as [|c s1 IH]; [reflexivity|].
  rewrite append_cons. simpl. rewrite IH. reflexivity.
Qed.

(** A path that ends in [.jsonl] and has no other occurrence of it gets
    its suffix replaced, and nothing else. *)
Lemma yml_path_trailing_suffix (stem : string) :
  (forall a b, stem +:+ ".jsonl" = a +:+ ".jsonl" +:+ b -> b = "") ->
  yml_path (stem +:+ ".jsonl") = stem +:+ ".yml".
Proof.
  unfold yml_path, str_replace.
  induction stem as [|c stem IH]; intros Honly.
  - reflexivity.
  - rewrite !append_cons. simpl.
    destruct (String.prefix ".jsonl" (String c (stem +:+ ".jsonl"))) eqn:Epre.
    + apply prefix_append in Epre as (rest & Hrest).
      pose proof (Honly "" rest Hrest) as ->.
      apply (f_equal String.length) in Hrest.
      simpl in Hrest. rewrite length_append in Hrest. simpl in Hrest. lia.
    + simpl in Epre. rewrite Epre. f_equal. apply IH.
      intros a b Hab. apply (Honly (String c a) b).
      rewrite !append_cons, Hab. reflexivity.
Qed.

(** *** What the report shows for absent fields *)

(** C3. A [ToolInput] event whose non-empty [tool_input] has no
    [tool_name] gives a record whose name is rendered as [None], both on
    its console line and in its document entry: the record holds the key
    [tool_name] with the value [None], so the default [Unknown] of the
    report is never taken. *)
Theorem missing_tool_name_renders_None
        (d tool_input timing : dict) (tool_calls : list dict) (i : nat) :
  eq_str (dict_get d "event_type" VNone) "ToolInput" = true ->
  dict_get d "tool_input" (VDict []) = VDict tool_input ->
  tool_input <> [] ->
  dict_get d "timing" (VDict []) = VDict timing ->
  dict_lookup tool_input "tool_name" = None ->
  exists call,
    process tool_calls (VDict d) = Ok (tool_calls ++ [call]) /\
    dict_lookup call "tool_name" = Some VNone /\
    (exists rest,
        console_line i call =
        "  " +:+ int_str (Z.of_nat (i + 1)) +:+ ". None - " +:+ rest) /\
    (exists rest, yml_entry call = "  - tool_name: None" +:+ nl +:+ rest).
Proof.
  intros Het Hti Hne Htm Hname.
  eexists. split; [apply (process_ToolInput d tool_input timing); assumption|].
  rewrite (dict_get_absent _ _ _ Hname).
  split; [reflexivity|]. split.
  - eexists. unfold console_line. reflexivity.
  - eexists. unfold yml_entry. reflexivity.
Qed.

(** C7. A [ToolInput] event without a [timestamp] gives a record whose
    document entry has the line [start_time: "None"]: the record holds the
    key [start_time] with the value [None], so the empty default of the
    report is never taken. *)
Theorem missing_timestamp_renders_None
        (d tool_input timing : dict) (tool_calls : list dict) :
  eq_str (dict_get d "event_type" VNone) "ToolInput" = true ->
  dict_get d "tool_input" (VDict []) = VDict tool_input ->
  tool_input <> [] ->
  dict_get d "timing" (VDict []) = VDict timing ->
  dict_lookup d "timestamp" = None ->
  exists call,
    process tool_calls (VDict d) = Ok (tool_calls ++ [call]) /\
    dict_lookup call "start_time" = Some VNone /\
    exists rest,
      yml_entry call =
      "  - tool_name: " +:+ py_str (dict_get tool_input "tool_name" VNone) +:+ nl +:+
      "    start_time: " +:+ dquote +:+ "None" +:+ dquote +:+ nl +:+ rest.
Proof.
  intros Het Hti Hne Htm Hts.
  eexists. split; [apply (process_ToolInput d tool_input timing); assumption|].
  rewrite (dict_get_absent _ _ _ Hts).
  split; [reflexivity|].
  eexists. unfold yml_entry. reflexivity.
Qed.

(** *** A line that does not decode *)

Lemma extract_from_app (lines1 lines2 : list string) :
  forall tool_calls,
    extract_from tool_calls (lines1 ++ lines2) =
    let* tool_calls := extract_from tool_calls lines1 in
    extract_from tool_calls lines2.
Proof.
  induction lines1 as [|line rest IH]; intros tool_calls; simpl.
  - reflexivity.
  - destruct (json_loads line) as [data|e]; simpl; [|reflexivity].
    destruct (process tool_calls data) as [tool_calls'|e]; simpl; [|reflexivity].
    apply IH.
Qed.

(** The loop stops at a line that does not decode, if not before. *)
Lemma extract_bad_line (pre post : list string) (bad : string) (e : exn) :
  json_loads bad = Raise e ->
  (exists e', extract (pre ++ bad :: post) = Raise e') /\
  (forall tool_calls, extract pre = Ok tool_calls ->
                      extract (pre ++ bad :: post) = Raise e).
Proof.
  intros Hbad. unfold extract. rewrite extract_from_app.
  destruct (extract_from [] pre) as [tool_calls|e'] eqn:Epre; simpl; rewrite ?Hbad; simpl.
  - split; [exists e; reflexivity | reflexivity].
  - split; [exists e'; reflexivity | discriminate].
Qed.

(** C5. If a line of the source file does not decode, the run ends with
    an exception and leaves the world as it found it: no file is written
    and nothing is printed, so the records of the earlier lines are not
    reported.  When the earlier lines were processed without error, the
    exception is the one raised for that line. *)
Theorem malformed_line_aborts
        (argv : list string) (w : world) (text : string)
        (pre post : list string) (bad : string) (e : exn) :
  files w !! file_path argv = Some text ->
  file_lines text = pre ++ bad :: post ->
  json_loads bad = Raise e ->
  (exists e', main argv w = (Raise e', w)) /\
  (forall tool_calls, extract pre = Ok tool_calls ->
                      extract (file_lines text) = Raise e /\
                      main argv w = (Raise e, w)).
Proof.
  intros Hfile Hlines Hbad.
  destruct (extract_bad_line pre post bad e Hbad) as [(e' & Hany) Hfirst].
  unfold main. rewrite Hfile, Hlines. split.
  - exists e'. rewrite Hany. reflexivity.
  - intros tool_calls Hpre. rewrite (Hfirst tool_calls Hpre). split; reflexivity.
Qed.

(** ** Further properties *)

(** *** When the loop body raises *)

Lemma is_dict_true (x : value) : is_dict x = true -> exists d, x = VDict d.
Proof. destruct x; try discriminate. intros _. eexists. reflexivity. Qed.

Lemma py_get_not_dict (x : value) (k : string) (default : value) :
  is_dict x = false -> py_get x k default = Raise AttributeError.
Proof. destruct x; try reflexivity. discriminate. Qed.

Lemma process_outcome (tool_calls : list dict) (data : value) :
  (accepted tool_calls data = true ->
   exists tool_calls', process tool_calls data = Ok tool_calls') /\
  (accepted tool_calls data = false ->
   process tool_calls data = Raise AttributeError).
Proof.
  destruct data as [| | | | | |d]; try (split; [discriminate | reflexivity]).
  unfold accepted, process. simpl.
  destruct (eq_str (dict_get d "event_type" VNone) "ToolInput") eqn:Ein.
  - destruct (truthy (dict_get d "tool_input" (VDict []))) eqn:Etr; simpl.
    + destruct (is_dict (dict_get d "tool_input" (VDict []))) eqn:Eti; simpl.
      * apply is_dict_true in Eti as (tool_input & Eti). rewrite Eti.
        unfold new_call. simpl.
        destruct (is_dict (dict_get d "timing" (VDict []))) eqn:Etm.
        -- apply is_dict_true in Etm as (timing & Etm). rewrite Etm. simpl.
           split; [eexists; reflexivity | discriminate].
        -- rewrite (py_get_not_dict _ _ _ Etm). simpl.
           split; [discriminate | reflexivity].
      * unfold new_call. rewrite (py_get_not_dict _ _ _ Eti). simpl.
        split; [discriminate | reflexivity].
    + split; [eexists; reflexivity | discriminate].
  - destruct (eq_str (dict_get d "event_type" VNone) "ToolOutput") eqn:Eout; simpl.
    + destruct tool_calls as [|call0 calls0] using rev_ind.
      * split; [eexists; reflexivity | discriminate].
      * clear IHcalls0. unfold attach_output. rewrite last_snoc.
        replace (match calls0 ++ [call0] with [] => true
                 | _ :: _ => is_dict (dict_get d "tool_output" (VDict [])) end)
          with (is_dict (dict_get d "tool_output" (VDict [])))
          by (destruct calls0; reflexivity).
        destruct (is_dict (dict_get d "tool_output" (VDict []))) eqn:Eto.
        -- apply is_dict_true in Eto as (tool_output & Eto). rewrite Eto. simpl.
           split; [eexists; reflexivity | discriminate].
        -- rewrite (py_get_not_dict _ _ _ Eto). simpl.
           split; [discriminate | reflexivity].
    + split; [eexists; reflexivity | discriminate].
Qed.

Lemma process_raises (tool_calls : list dict) (data : value) (e : exn) :
  process tool_calls data = Raise e ->
  accepted tool_calls data = false /\ e = AttributeError.
Proof.
  intros H. destruct (process_outcome tool_calls data) as [Hyes Hno].
  destruct (accepted tool_calls data).
  - destruct (Hyes eq_refl) as (tool_calls' & Hok). congruence.
  - split; [reflexivity|]. rewrite (Hno eq_refl) in H. congruence.
Qed.

(** X1. The loop body either runs through or raises [AttributeError], and
    it runs through exactly on the accepted events: a mapping, with
    mappings for [tool_input] and [timing] when it is a [ToolInput] event
    with a true [tool_input], and with a mapping for [tool_output] when it
    is a [ToolOutput] event met while a record exists. *)
Theorem process_runs_iff_accepted (tool_calls : list dict) (data : value) :
  (accepted tool_calls data = true <->
   exists tool_calls', process tool_calls data = Ok tool_calls') /\
  (accepted tool_calls data = false <->
   process tool_calls data = Raise AttributeError).
Proof.
  destruct (process_outcome tool_calls data) as [Hyes Hno].
  split; split.
  - exact Hyes.
  - intros (tool_calls' & Hok).
    destruct (accepted tool_calls data); [reflexivity|].
    rewrite (Hno eq_refl) in Hok. discriminate.
  - exact Hno.
  - intros Hraise. apply (process_raises _ _ _ Hraise).
Qed.

(** *** What one iteration can do to the list *)

(** The three things a successful iteration does: nothing, append the
    record of a triggering event, or set [output] and [success] on the
    last record for a [ToolOutput] event. *)
Lemma process_cases (tool_calls tool_calls' : list dict) (data : value) :
  process tool_calls data = Ok tool_calls' ->
  (tool_calls' = tool_calls /\ is_trigger data = false) \/
  (exists call,
      tool_calls' = tool_calls ++ [call] /\
      is_trigger data = true /\ derived_from call data) \/
  (exists init call results success,
      tool_calls = init ++ [call] /\
      tool_calls' =
        init ++ [dict_set (dict_set call "output" results) "success" success] /\
      is_ToolOutput data = true).
Proof.
  destruct data as [| | | | | |d]; try discriminate.
  intros H. unfold process in H. simpl in H.
  destruct (eq_str (dict_get d "event_type" VNone) "ToolInput") eqn:Ein.
  - destruct (truthy (dict_get d "tool_input" (VDict []))) eqn:Etr; simpl in H.
    + destruct (dict_get d "tool_input" (VDict [])) as [| | | | | |tool_input] eqn:Eti;
        try discriminate.
      unfold new_call in H. simpl in H.
      destruct (dict_get d "timing" (VDict [])) as [| | | | | |timing] eqn:Etm;
        try discriminate.
      simpl in H. injection H as <-.
      right. left. eexists. split; [reflexivity|]. split.
      * rewrite (is_trigger_dict d tool_input Ein Eti). exact Etr.
      * apply derived_from_new_call; assumption.
    + injection H as <-. left. split; [reflexivity|].
      apply is_trigger_empty. exact Etr.
  - destruct (eq_str (dict_get d "event_type" VNone) "ToolOutput") eqn:Eout;
      simpl in H.
    + destruct tool_calls as [|call0 calls0 _] using rev_ind.
      * injection H as <-. left. split; [reflexivity|].
        apply is_trigger_ToolOutput. exact Eout.
      * unfold attach_output in H. rewrite last_snoc in H.
        destruct (dict_get d "tool_output" (VDict [])) as [| | | | | |tool_output];
          try discriminate.
        simpl in H. rewrite set_last_snoc in H. injection H as <-.
        right. right. do 4 eexists. split; [reflexivity|].
        split; [reflexivity|]. exact Eout.
    + injection H as <-. left. split; [reflexivity|].
      apply is_trigger_other. exact Ein.
Qed.

Lemma same_shown_fields_refl (call : dict) : same_shown_fields call call.
Proof. unfold same_shown_fields. apply Forall_forall. reflexivity. Qed.

Lemma same_shown_fields_trans (call1 call2 call3 : dict) :
  same_shown_fields call1 call2 -> same_shown_fields call2 call3 ->
  same_shown_fields call1 call3.
Proof.
  unfold same_shown_fields. rewrite !Forall_forall.
  intros H12 H23 k Hk. rewrite (H12 k Hk). apply H23. exact Hk.
Qed.

Lemma continues_refl (tool_calls : list dict) : continues tool_calls tool_calls.
Proof.
  split; [lia|]. split; [reflexivity|].
  intros i call Hi. exists call. split; [exact Hi | apply same_shown_fields_refl].
Qed.

Lemma continues_trans (calls1 calls2 calls3 : list dict) :
  continues calls1 calls2 -> continues calls2 calls3 -> continues calls1 calls3.
Proof.
  intros (Hlen12 & Hfix12 & Hshow12) (Hlen23 & Hfix23 & Hshow23).
  split; [lia|]. split.
  - intros i Hi. rewrite Hfix23 by lia. apply Hfix12. exact Hi.
  - intros i call Hcall.
    destruct (Hshow12 i call Hcall) as (call2 & Hcall2 & Hsame2).
    destruct (Hshow23 i call2 Hcall2) as (call3 & Hcall3 & Hsame3).
    exists call3. split; [exact Hcall3|].
    eapply same_shown_fields_trans; eassumption.
Qed.

Lemma continues_snoc (tool_calls : list dict) (call : dict) :
  continues tool_calls (tool_calls ++ [call]).
Proof.
  split; [rewrite length_app; lia|]. split.
  - intros i Hi. apply lookup_app_l. lia.
  - intros i c Hc. exists c. split; [|apply same_shown_fields_refl].
    rewrite lookup_app_l; [exact Hc|]. eapply lookup_lt_Some. exact Hc.
Qed.

Lemma continues_set_output (init : list dict) (call : dict) (results success : value) :
  continues (init ++ [call])
            (init ++ [dict_set (dict_set call "output" results) "success" success]).
Proof.
  split; [rewrite !length_app; simpl; lia|]. split.
  - intros i Hi. rewrite length_app in Hi. simpl in Hi.
    rewrite !lookup_app_l by lia. reflexivity.
  - intros i c Hc.
    destruct (decide (i < length init)%nat) as [Hlt|Hge].
    + rewrite lookup_app_l in Hc by exact Hlt.
      exists c. split; [|apply same_shown_fields_refl].
      rewrite lookup_app_l by exact Hlt. exact Hc.
    + rewrite lookup_app_r in Hc by lia.
      rewrite lookup_app_r by lia.
      destruct (i - length init)%nat as [|j]; simpl in *; [|discriminate].
      injection Hc as <-. eexists. split; [reflexivity|].
      apply same_shown_fields_set_output.
Qed.

Lemma process_continues (tool_calls tool_calls' : list dict) (data : value) :
  process tool_calls data = Ok tool_calls' -> continues tool_calls tool_calls'.
Proof.
  intros H. apply process_cases in H
    as [(-> & _) | [(call & -> & _) | (init & call & results & success & -> & -> & _)]].
  - apply continues_refl.
  - apply continues_snoc.
  - apply continues_set_output.
Qed.

(** X2. Extraction only ever continues the list it has: over any lines,
    from any list of records, the list does not shrink, every record but
    the last of the starting list stays in place unchanged, and every
    record of the starting list keeps its [tool_name], [start_time],
    [input] and [duration_ms]. *)
Theorem extract_from_continues (lines : list string) :
  forall tool_calls tool_calls',
    extract_from tool_calls lines = Ok tool_calls' ->
    continues tool_calls tool_calls'.
Proof.
  induction lines as [|line rest IH]; intros calls calls' H; simpl in H.
  - injection H as <-. apply continues_refl.
  - destruct (json_loads line) as [data|e]; [|discriminate]. simpl in H.
    destruct (process calls data) as [calls1|e] eqn:Eproc; [|discriminate].
    simpl in H. eapply continues_trans.
    + eapply process_continues. exact Eproc.
    + apply IH. exact H.
Qed.

(** *** Outputs in a row *)

Lemma dict_set_twice (d : dict) (k : string) (v1 v2 : value) :
  dict_set (dict_set d k v1) k v2 = dict_set d k v2.
Proof.
  induction d as [|[k0 v0] rest IH]; simpl.
  - rewrite String.eqb_refl. reflexivity.
  - destruct (String.eqb k0 k) eqn:E; simpl; rewrite E; [reflexivity|].
    rewrite IH. reflexivity.
Qed.

(** Setting two keys in either order gives the same dict when the key set
    second is already there. *)
Lemma dict_set_swap (d : dict) (k1 k2 : string) (v w : value) :
  k1 <> k2 ->
  dict_lookup d k1 <> None ->
  dict_set (dict_set d k2 v) k1 w = dict_set (dict_set d k1 w) k2 v.
Proof.
  intros Hne. induction d as [|[k0 v0] rest IH]; simpl; intros Hin.
  - congruence.
  - destruct (String.eqb k0 k1) eqn:E1; destruct (String.eqb k0 k2) eqn:E2; simpl;
      rewrite ?E1, ?E2.
    + apply String.eqb_eq in E1, E2. congruence.
    + reflexivity.
    + reflexivity.
    + rewrite IH by exact Hin. reflexivity.
Qed.

Lemma set_output_twice (call : dict) (r1 s1 r2 s2 : value) :
  dict_set (dict_set (dict_set (dict_set call "output" r1) "success" s1)
                     "output" r2) "success" s2 =
  dict_set (dict_set call "output" r2) "success" s2.
Proof.
  rewrite (dict_set_swap (dict_set call "output" r1) "output" "success").
  - rewrite !dict_set_twice. reflexivity.
  - discriminate.
  - rewrite dict_lookup_set_eq. discriminate.
Qed.

Lemma process_ToolOutput_not_dict (d : dict) (init : list dict) (call : dict) :
  eq_str (dict_get d "event_type" VNone) "ToolOutput" = true ->
  is_dict (dict_get d "tool_output" (VDict [])) = false ->
  process (init ++ [call]) (VDict d) = Raise AttributeError.
Proof.
  intros Het Hto. unfold process. simpl.
  rewrite (eq_str_exclusive _ _ "ToolInput" Het) by discriminate.
  rewrite Het. simpl. unfold attach_output. rewrite last_snoc.
  rewrite (py_get_not_dict _ _ _ Hto). reflexivity.
Qed.

(** X3. The last output wins: after a [ToolOutput] event has been
    processed, processing a second [ToolOutput] event gives exactly what
    the second one alone would have given, the same list or the same
    exception. *)
Theorem last_ToolOutput_wins (d1 d2 : dict) (tool_calls tool_calls1 : list dict) :
  eq_str (dict_get d1 "event_type" VNone) "ToolOutput" = true ->
  eq_str (dict_get d2 "event_type" VNone) "ToolOutput" = true ->
  process tool_calls (VDict d1) = Ok tool_calls1 ->
  process tool_calls1 (VDict d2) = process tool_calls (VDict d2).
Proof.
  intros Het1 Het2 H. apply process_cases in H
    as [(-> & _) | [(call & _ & Htr & _) | (init & call & r1 & s1 & -> & -> & _)]].
  - reflexivity.
  - rewrite (is_trigger_ToolOutput d1 Het1) in Htr. discriminate.
  - destruct (is_dict (dict_get d2 "tool_output" (VDict []))) eqn:Eto.
    + apply is_dict_true in Eto as (tool_output & Eto).
      rewrite !(process_ToolOutput d2 tool_output) by assumption.
      rewrite set_output_twice. reflexivity.
    + rewrite !process_ToolOutput_not_dict by assumption. reflexivity.
Qed.

(** *** Lines without outputs *)

(** X4. Over lines none of which decodes to a [ToolOutput] event, the
    records already in the list are left exactly as they are: the result
    is the starting list followed by one record per triggering event, in
    order. *)
Theorem extract_from_without_ToolOutput (lines : list string) (events : list value) :
  Forall2 (fun line data => json_loads line = Ok data) lines events ->
  Forall (fun data => is_ToolOutput data = false) events ->
  forall tool_calls tool_calls',
    extract_from tool_calls lines = Ok tool_calls' ->
    exists added,
      tool_calls' = tool_calls ++ added /\
      Forall2 derived_from added (List.filter is_trigger events).
Proof.
  induction 1 as [|line data lines events Hload Hrest IH];
    intros Hno calls calls' H; simpl in H.
  - injection H as <-. exists []. rewrite app_nil_r. split; [reflexivity | constructor].
  - inversion Hno as [|x xs Hno1 Hno2]; subst.
    rewrite Hload in H. simpl in H.
    destruct (process calls data) as [calls1|e] eqn:Eproc; [|discriminate].
    simpl in H. destruct (IH Hno2 calls1 calls' H) as (added & -> & Hadded).
    apply process_cases in Eproc
      as [(-> & Htr) | [(call & -> & Htr & Hcall) | (init & call & r & s & _ & _ & Hout)]].
    + exists added. split; [reflexivity|]. simpl. rewrite Htr. exact Hadded.
    + exists (call :: added). split; [rewrite <- List.app_assoc; reflexivity|].
      simpl. rewrite Htr. constructor; assumption.
    + rewrite Hno1 in Hout. discriminate.
Qed.

(** *** What a run does to the world *)


Lemma stdout_print_calls (tool_calls : list dict) :
  forall i w,
    stdout (print_calls i tool_calls w) =
    stdout w +:+
    fold_right String.append ""
      (imap (fun j call => console_line (i + j) call +:+ nl) tool_calls).
Proof.
  induction tool_calls as [|call rest IH]; intros i w; simpl.
  - symmetry. apply append_nil_r.
  - rewrite IH. simpl. rewrite Nat.add_0_r, !append_assoc.
    do 4 f_equal. apply imap_ext. intros j c _. simpl.
    rewrite Nat.add_succ_r. reflexivity.
Qed.

(** X6. A run that succeeds adds to the console, after what was there:
    the line [Found n tool calls:] with the number of records, one line
    per record in order, numbered from 1, an empty line, and the line
    [Converted to:] with the destination. *)
Theorem main_success_stdout (argv : list string) (w w' : world) :
  main argv w = (Ok tt, w') ->
  exists text tool_calls,
    files w !! file_path argv = Some text /\
    extract (file_lines text) = Ok tool_calls /\
    stdout w' =
      stdout w +:+
      "Found " +:+ int_str (Z.of_nat (length tool_calls)) +:+ " tool calls:" +:+ nl +:+
      fold_right String.append ""
        (imap (fun i call => console_line i call +:+ nl) tool_calls) +:+
      nl +:+ "Converted to: " +:+ yml_path (file_path argv) +:+ nl.
Proof.
  unfold main. intros H.
  destruct (files w !! file_path argv) as [text|] eqn:Efile; [|discriminate].
  destruct (extract (file_lines text)) as [tool_calls|e] eqn:Eext; [|discriminate].
  unfold write_file in H.
  destruct (faults (print_summary tool_calls w) !! yml_path (file_path argv))
    as [[e|e remains]|]; try discriminate.
  injection H as <-.
  exists text, tool_calls. split; [reflexivity|]. split; [exact Eext|].
  simpl. unfold print_summary. rewrite stdout_print_calls. simpl.
  rewrite !append_assoc. reflexivity.
Qed.

(** *** Occurrences and replacement *)

Lemma prefix_cons (a b : ascii) (p s : string) :
  String.prefix (String a p) (String b s) = true <->
  a = b /\ String.prefix p s = true.
Proof.
  simpl. destruct (ascii_dec a b) as [->|Hne]; split.
  - intros H. split; [reflexivity | exact H].
  - intros [_ H]. exact H.
  - discriminate.
  - intros [Heq _]. contradiction.
Qed.

Lemma prefix_nil (s : string) : String.prefix "" s = true.
Proof. destruct s; reflexivity. Qed.

Lemma prefix_of_append (p rest : string) : String.prefix p (p +:+ rest) = true.
Proof.
  induction p as [|a p IH]; [apply prefix_nil|].
  rewrite append_cons. apply prefix_cons. split; [reflexivity | exact IH].
Qed.

Lemma prefix_length (p s : string) :
  String.prefix p s = true -> (String.length p <= String.length s)%nat.
Proof.
  intros H. apply prefix_append in H as (rest & ->).
  rewrite length_append. lia.
Qed.

Lemma occurs_prefix (old s : string) : String.prefix old s = true -> occurs old s.
Proof.
  intros H. apply prefix_append in H as (rest & ->). exists "", rest. reflexivity.
Qed.

Lemma occurs_cons (old : string) (c : ascii) (s : string) :
  occurs old s -> occurs old (String c s).
Proof. intros (a & b & ->). exists (String c a), b. reflexivity. Qed.

Lemma contains_prefix (old s : string) :
  String.prefix old s = true -> contains old s = true.
Proof. destruct s; simpl; intros ->; reflexivity. Qed.

Lemma occurs_contains (old s : string) : occurs old s -> contains old s = true.
Proof.
  intros (a & b & ->). induction a as [|c a IH].
  - apply contains_prefix. apply (prefix_of_append old b).
  - rewrite append_cons. cbn [contains]. rewrite IH. apply orb_true_r.
Qed.

(** A string in which [old] does not occur is left as it is. *)
Lemma replace_without_occurrence (old new s : string) :
  ~ occurs old s -> str_replace s old new = s.
Proof.
  unfold str_replace. induction s as [|c s IH]; intros Hno; simpl.
  - reflexivity.
  - destruct (String.prefix old (String c s)) eqn:Epre.
    + exfalso. apply Hno. apply occurs_prefix. exact Epre.
    + simpl in Epre. rewrite Epre. f_equal. apply IH.
      intros Hs. apply Hno. apply occurs_cons. exact Hs.
Qed.

(** Replacing by a string that is not longer never lengthens. *)
Lemma length_replace_from (old new : string) :
  (String.length new <= String.length old)%nat ->
  forall s k,
    (k <= String.length s)%nat ->
    (String.length (replace_from old new k s) + k <= String.length s)%nat.
Proof.
  intros Hshort. induction s as [|c s IH]; intros k Hk; simpl in *.
  - lia.
  - destruct k as [|k].
    + destruct (String.prefix old (String c s)) eqn:Epre.
      * simpl in Epre. rewrite Epre. rewrite length_append.
        pose proof (prefix_length old (String c s) Epre) as Hlen. simpl in Hlen.
        pose proof (IH (pred (String.length old)) ltac:(lia)). lia.
      * simpl in Epre. rewrite Epre. simpl.
        pose proof (IH 0%nat ltac:(lia)). lia.
    + pose proof (IH k ltac:(lia)). lia.
Qed.

(** Replacing by a shorter string shortens a string in which [old]
    occurs. *)
Lemma length_replace_occurrence (old new s : string) :
  (String.length new < String.length old)%nat ->
  occurs old s ->
  (String.length (str_replace s old new) < String.length s)%nat.
Proof.
  intros Hshort (a & b & ->). unfold str_replace.
  assert (Hmatch : forall c s,
             String.prefix old (String c s) = true ->
             (String.length (replace_from old new 0 (String c s))
              < String.length (String c s))%nat).
  { intros c s Epre. simpl. simpl in Epre. rewrite Epre. rewrite length_append.
    pose proof (prefix_length old (String c s) Epre) as Hlen. simpl in Hlen.
    pose proof (length_replace_from old new ltac:(lia) s
                  (pred (String.length old)) ltac:(lia)).
    lia. }
  induction a as [|c a IH].
  - change ("" +:+ old +:+ b) with (old +:+ b).
    pose proof (prefix_of_append old b) as Epre.
    destruct (old +:+ b) as [|c s] eqn:E.
    + apply (f_equal String.length) in E. rewrite length_append in E.
      simpl in E. lia.
    + apply Hmatch. exact Epre.
  - rewrite append_cons.
    destruct (String.prefix old (String c (a +:+ old +:+ b))) eqn:Epre.
    + apply Hmatch. exact Epre.
    + simpl. simpl in Epre. rewrite Epre. simpl. lia.
Qed.

(** X7. The destination is the source path itself exactly when [.jsonl]
    does not occur in the source path. *)
Theorem yml_path_same_iff_no_suffix (p : string) :
  yml_path p = p <-> ~ occurs ".jsonl" p.
Proof.
  unfold yml_path. split.
  - intros Hsame Hocc.
    pose proof (length_replace_occurrence ".jsonl" ".yml" p ltac:(simpl; lia) Hocc)
      as Hlen.
    rewrite Hsame in Hlen. lia.
  - apply replace_without_occurrence.
Qed.

Lemma replace_from_cons (old new : string) (c : ascii) (s : string) :
  replace_from old new 0 (String c s) =
  if String.prefix old (String c s)
  then new +:+ replace_from old new (pred (String.length old)) s
  else String c (replace_from old new 0 s).
Proof. reflexivity. Qed.

Lemma contains_dot_cons (c : ascii) (t : string) :
  contains "." (String c t) = false ->
  c <> "."%char /\ contains "." t = false.
Proof.
  cbn [contains]. intros H. apply orb_false_elim in H as [Hc Ht].
  split; [|exact Ht]. intros ->.
  rewrite (proj2 (prefix_cons "." "." "" t)) in Hc; [discriminate|].
  split; [reflexivity | apply prefix_nil].
Qed.

Lemma contains_after_yml (s : string) :
  contains ".jsonl" (".yml" +:+ s) = contains ".jsonl" s.
Proof. reflexivity. Qed.

(** After the replacement there is no [.jsonl] left.  A run of characters
    other than the dot at the front of the result was already at the front
    of the string. *)
Lemma replace_keeps_front (t : string) :
  contains "." t = false ->
  forall s,
    String.prefix t (replace_from ".jsonl" ".yml" 0 s) = true ->
    String.prefix t s = true.
Proof.
  induction t as [|c t IH]; intros Hdot s H.
  - apply prefix_nil.
  - apply contains_dot_cons in Hdot as [Hc Ht].
    destruct s as [|x s]; [discriminate H|].
    rewrite replace_from_cons in H.
    destruct (String.prefix ".jsonl" (String x s)).
    + rewrite append_cons in H. apply prefix_cons in H as [-> _]. congruence.
    + apply prefix_cons in H as [-> H]. apply prefix_cons.
      split; [reflexivity|]. apply IH; assumption.
Qed.

Lemma replace_leaves_none (s : string) :
  forall k, contains ".jsonl" (replace_from ".jsonl" ".yml" k s) = false.
Proof.
  induction s as [|c s IH]; intros k.
  - reflexivity.
  - destruct k as [|k]; [|apply IH].
    rewrite replace_from_cons.
    destruct (String.prefix ".jsonl" (String c s)) eqn:Epre.
    + rewrite contains_after_yml. apply IH.
    + cbn [contains]. rewrite IH, orb_false_r.
      destruct (String.prefix ".jsonl" (String c (replace_from ".jsonl" ".yml" 0 s)))
        eqn:Eres; [|reflexivity].
      apply prefix_cons in Eres as [<- Eres].
      apply (replace_keeps_front "jsonl") in Eres; [|reflexivity].
      rewrite <- Epre. symmetry. apply prefix_cons. split; [reflexivity | exact Eres].
Qed.

(** X8. [.jsonl] never occurs in a destination, so deriving the
    destination of a destination changes nothing. *)
Theorem yml_path_has_no_suffix (p : string) :
  ~ occurs ".jsonl" (yml_path p) /\ yml_path (yml_path p) = yml_path p.
Proof.
  assert (Hno : ~ occurs ".jsonl" (yml_path p)).
  { intros Hocc. apply occurs_contains in Hocc.
    unfold yml_path, str_replace in Hocc.
    rewrite replace_leaves_none in Hocc. discriminate. }
  split; [exact Hno|].
  apply replace_without_occurrence. exact Hno.
Qed.


(** *** Where extraction fails *)

(** When every read succeeds, this is the loop over the lines. *)
Lemma extract_reading_all_read (lines : list string) :
  forall tool_calls,
    extract_reading tool_calls (List.map Ok lines) = extract_from tool_calls lines.
Proof.
  induction lines as [|line rest IH]; intros calls; simpl; [reflexivity|].
  destruct (json_loads line) as [data|e]; simpl; [|reflexivity].
  destruct (process calls data) as [calls1|e]; simpl; [apply IH | reflexivity].
Qed.

Lemma extract_reading_raises (yielded : list (result string)) (e : exn) :
  forall tool_calls,
    extract_reading tool_calls yielded = Raise e ->
    exists pre item post tool_calls',
      yielded = List.map Ok pre ++ item :: post /\
      extract_from tool_calls pre = Ok tool_calls' /\
      (item = Raise e \/
       exists line,
         item = Ok line /\
         (json_loads line = Raise e \/
          exists data, json_loads line = Ok data /\
                       accepted tool_calls' data = false /\ e = AttributeError)).
Proof.
  induction yielded as [|[line|e0] rest IH]; intros calls H; simpl in H;
    [discriminate| |].
  - destruct (json_loads line) as [data|e'] eqn:Eload; simpl in H.
    + destruct (process calls data) as [calls1|e'] eqn:Eproc; simpl in H.
      * destruct (IH calls1 H) as (pre & bad & post & calls' & -> & Hpre & Hbad).
        exists (line :: pre), bad, post, calls'. split; [reflexivity|].
        split; [|exact Hbad]. simpl. rewrite Eload. simpl. rewrite Eproc. exact Hpre.
      * injection H as ->. apply process_raises in Eproc as [Hacc ->].
        exists [], (Ok line), rest, calls. split; [reflexivity|].
        split; [reflexivity|]. right. exists line. split; [reflexivity|].
        right. exists data. repeat split; assumption.
    + injection H as ->. exists [], (Ok line), rest, calls.
      split; [reflexivity|]. split; [reflexivity|].
      right. exists line. split; [reflexivity|]. left. exact Eload.
  - injection H as ->. exists [], (Raise e), rest, calls.
    split; [reflexivity|]. split; [reflexivity|]. left. reflexivity.
Qed.

(** X11. When the loop over the file raises, the file yielding lines
    until, possibly, the read itself raises, there is a first offending
    place: the lines before it were processed without error, and either
    the read raised that exception there, or the decoder raised it on the
    line read there, or that line decodes to an event that is not accepted
    with the records extracted so far and the exception is
    [AttributeError]. *)
Theorem extract_raises_at_first_bad_line
        (yielded : list (result string)) (e : exn) :
  extract_reading [] yielded = Raise e ->
  exists pre item post tool_calls,
    yielded = List.map Ok pre ++ item :: post /\
    extract pre = Ok tool_calls /\
    (item = Raise e \/
     exists line,
       item = Ok line /\
       (json_loads line = Raise e \/
        exists data, json_loads line = Ok data /\
                     accepted tool_calls data = false /\ e = AttributeError)).
Proof. apply extract_reading_raises. Qed.

(** *** The report and the triggering events *)

Lemma derived_from_same_shown_fields (call call' : dict) (data : value) :
  derived_from call data -> derived_from call' data ->
  same_shown_fields call call'.
Proof.
  intros (d & ti & tm & Hd & Hti & Htm & H1 & H2 & H3 & H4)
         (d' & ti' & tm' & Hd' & Hti' & Htm' & H1' & H2' & H3' & H4').
  subst data. injection Hd' as <-.
  rewrite Hti in Hti'. injection Hti' as <-.
  rewrite Htm in Htm'. injection Htm' as <-.
  unfold same_shown_fields, shown_fields.
  repeat constructor; congruence.
Qed.

Lemma Forall2_derived_from_same (calls1 calls2 : list dict) (events : list value) :
  Forall2 derived_from calls1 events ->
  Forall2 derived_from calls2 events ->
  Forall2 same_shown_fields calls1 calls2.
Proof.
  intros H1. revert calls2.
  induction H1 as [|c1 e cs1 es Hc1 Hcs1 IH]; intros calls2 H2;
    inversion H2; subst; constructor.
  - eapply derived_from_same_shown_fields; eassumption.
  - apply IH. assumption.
Qed.

Lemma console_line_same_shown_fields (i : nat) (call call' : dict) :
  same_shown_fields call call' -> console_line i call = console_line i call'.
Proof.
  intros H. unfold same_shown_fields, shown_fields in H.
  inversion H as [|k1 l1 H1 T1]; subst.
  inversion T1 as [|k2 l2 H2 T2]; subst.
  inversion T2 as [|k3 l3 H3 T3]; subst.
  unfold console_line.
  rewrite (dict_get_same_lookup _ _ _ (VStr "Unknown") H1).
  rewrite (dict_get_same_lookup _ _ _ (VDict []) H3).
  reflexivity.
Qed.

Lemma print_calls_same_shown_fields (calls1 calls2 : list dict) :
  Forall2 same_shown_fields calls1 calls2 ->
  forall i w, print_calls i calls1 w = print_calls i calls2 w.
Proof.
  induction 1 as [|c1 c2 cs1 cs2 Hc Hcs IH]; intros i w; simpl.
  - reflexivity.
  - rewrite (console_line_same_shown_fields i c1 c2 Hc). apply IH.
Qed.

Lemma yml_content_same_shown_fields (calls1 calls2 : list dict) :
  Forall2 same_shown_fields calls1 calls2 ->
  yml_content calls1 = yml_content calls2.
Proof.
  intros H. rewrite !yml_content_layout. f_equal.
  induction H as [|c1 c2 cs1 cs2 Hc Hcs IH]; simpl; [reflexivity|].
  rewrite (yml_entry_same_shown_fields c1 c2 Hc), IH. reflexivity.
Qed.

(** X10. The report is a function of the triggering events alone: two
    logs of well-formed events with the same sequence of [ToolInput]
    events carrying a non-empty [tool_input] mapping give the same
    document and the same console summary, whatever [ToolOutput] and
    other events they hold. *)
Theorem report_depends_on_triggers_only
        (lines1 lines2 : list string) (events1 events2 : list value) :
  Forall2 (fun line data => json_loads line = Ok data) lines1 events1 ->
  Forall (fun data => well_formed data = true) events1 ->
  Forall2 (fun line data => json_loads line = Ok data) lines2 events2 ->
  Forall (fun data => well_formed data = true) events2 ->
  List.filter is_trigger events1 = List.filter is_trigger events2 ->
  exists calls1 calls2,
    extract lines1 = Ok calls1 /\
    extract lines2 = Ok calls2 /\
    yml_content calls1 = yml_content calls2 /\
    forall w, print_summary calls1 w = print_summary calls2 w.
Proof.
  intros Hload1 Hwf1 Hload2 Hwf2 Hsame.
  destruct (extract_from_well_formed lines1 events1 Hload1 Hwf1 [] [])
    as (calls1 & Hext1 & Hinv1); [constructor|].
  destruct (extract_from_well_formed lines2 events2 Hload2 Hwf2 [] [])
    as (calls2 & Hext2 & Hinv2); [constructor|].
  simpl in Hinv1, Hinv2. rewrite Hsame in Hinv1.
  pose proof (Forall2_derived_from_same _ _ _ Hinv1 Hinv2) as Hshown.
  exists calls1, calls2. split; [exact Hext1|]. split; [exact Hext2|]. split.
  - apply yml_content_same_shown_fields. exact Hshown.
  - intros w. unfold print_summary.
    rewrite (Forall2_length _ _ _ Hshown).
    apply print_calls_same_shown_fields. exact Hshown.
Qed.

(** ** The script on objects *)

(** *** Values and the objects that hold them *)

Lemma value_nested_ind (P : value -> Prop) :
  P VNone ->
  (forall b, P (VBool b)) ->
  (forall z, P (VInt z)) ->
  (forall f, P (VFloat f)) ->
  (forall s, P (VStr s)) ->
  (forall vs, Forall P vs -> P (VList vs)) ->
  (forall d, Forall (fun kv => P kv.2) d -> P (VDict d)) ->
  forall v, P v.
Proof.
  intros HNone HBool HInt HFloat HStr HList HDict.
  fix IH 1. intros [| b | z | f | s | vs | d].
  - exact HNone.
  - apply HBool.
  - apply HInt.
  - apply HFloat.
  - apply HStr.
  - apply HList. induction vs as [|v vs IHvs]; constructor; [apply IH | exact IHvs].
  - apply HDict. induction d as [|[k v] d IHd]; constructor; [apply IH | exact IHd].
Qed.

Lemma Forall2_Forall_r {A B : Type} (R R' : A -> B -> Prop)
      (xs : list A) (ys : list B) :
  Forall2 R xs ys ->
  Forall (fun y => forall x, R x y -> R' x y) ys ->
  Forall2 R' xs ys.
Proof.
  induction 1 as [|x y xs ys Hxy Hrest IH]; intros HF; [constructor|].
  inversion HF; subst. constructor; auto.
Qed.

(** Reading is kept when the store and the set of objects grow, or change
    outside the objects gone through. *)
Lemma repr_transfer (D D' : gset loc) (h h' : heap) :
  D ⊆ D' ->
  (forall l o, l ∈ D -> h !! l = Some o -> h' !! l = Some o) ->
  forall v p, repr D h p v -> repr D' h' p v.
Proof.
  clear json_loads float_repr str_repr.
  intros HD Hh. induction v as [| | | | | vs IHvs | d IHd] using value_nested_ind;
    intros p Hrepr; inversion Hrepr; subst; try constructor.
  - eapply repr_List; [set_solver | eauto |].
    eapply Forall2_Forall_r; eassumption.
  - eapply repr_Dict; [set_solver | eauto |].
    eapply Forall2_Forall_r; [eassumption|].
    eapply Forall_impl; [exact IHd|].
    intros kv Hkv kp [Hk Hv]. split; [exact Hk | apply Hkv; exact Hv].
Qed.

Lemma items_repr_transfer (D D' : gset loc) (h h' : heap)
      (items : list (string * pval)) (d : dict) :
  D ⊆ D' ->
  (forall l o, l ∈ D -> h !! l = Some o -> h' !! l = Some o) ->
  items_repr D h items d -> items_repr D' h' items d.
Proof.
  intros HD Hh H. unfold items_repr in *.
  eapply Forall2_impl; [exact H|].
  intros kp kv [Hk Hv]. split; [exact Hk|]. eapply repr_transfer; eassumption.
Qed.

Lemma repr_grow (D D' : gset loc) (h h' : heap) (p : pval) (v : value) :
  D ⊆ D' -> h ⊆ h' -> repr D h p v -> repr D' h' p v.
Proof.
  intros HD Hh. apply repr_transfer; [exact HD|].
  intros l o _ Hl. eapply lookup_weaken; eassumption.
Qed.

Lemma items_repr_grow (D D' : gset loc) (h h' : heap)
      (items : list (string * pval)) (d : dict) :
  D ⊆ D' -> h ⊆ h' -> items_repr D h items d -> items_repr D' h' items d.
Proof.
  intros HD Hh. apply items_repr_transfer; [exact HD|].
  intros l o _ Hl. eapply lookup_weaken; eassumption.
Qed.

(** *** New objects *)

Lemma new_object_spec (o : obj) (h : heap) (l : loc) (h' : heap) :
  new_object o h = (l, h') -> h !! l = None /\ h' = <[l := o]> h.
Proof.
  unfold new_object. intros [= <- <-]. split; [|reflexivity].
  apply not_elem_of_dom. apply is_fresh.
Qed.

Lemma insert_new_subseteq (h : heap) (l : loc) (o : obj) :
  h !! l = None -> h ⊆ <[l := o]> h.
Proof. intros H. apply insert_subseteq. exact H. Qed.

Lemma alloc_all_spec (vs : list value) :
  Forall (fun v => forall h p h', alloc v h = (p, h') ->
                   h ⊆ h' /\ repr (dom h' ∖ dom h) h' p v) vs ->
  forall h ps h',
    alloc_all alloc vs h = (ps, h') ->
    h ⊆ h' /\ Forall2 (repr (dom h' ∖ dom h) h') ps vs.
Proof.
  clear json_loads float_repr str_repr.
  induction 1 as [|v vs Hv Hvs IH]; intros h ps h' H; simpl in H.
  - injection H as <- <-. split; [reflexivity | constructor].
  - destruct (alloc v h) as [p h1] eqn:E1.
    destruct (alloc_all alloc vs h1) as [ps1 h2] eqn:E2.
    injection H as <- <-.
    destruct (Hv _ _ _ E1) as [Hsub1 Hrepr1].
    destruct (IH _ _ _ E2) as [Hsub2 Hrepr2].
    pose proof (subseteq_dom _ _ Hsub1). pose proof (subseteq_dom _ _ Hsub2).
    split; [etrans; eassumption|]. constructor.
    + eapply repr_grow; [|exact Hsub2|exact Hrepr1]. set_solver.
    + eapply Forall2_impl; [exact Hrepr2|].
      intros p' v'. apply repr_grow; [set_solver | reflexivity].
Qed.

Lemma alloc_items_spec (d : dict) :
  Forall (fun kv => forall h p h', alloc kv.2 h = (p, h') ->
                    h ⊆ h' /\ repr (dom h' ∖ dom h) h' p kv.2) d ->
  forall h items h',
    alloc_items alloc d h = (items, h') ->
    h ⊆ h' /\ items_repr (dom h' ∖ dom h) h' items d.
Proof.
  clear json_loads float_repr str_repr.
  induction 1 as [|[k v] d Hv Hd IH]; intros h items h' H; simpl in H.
  - injection H as <- <-. split; [reflexivity | constructor].
  - destruct (alloc v h) as [p h1] eqn:E1.
    destruct (alloc_items alloc d h1) as [items1 h2] eqn:E2.
    injection H as <- <-.
    destruct (Hv _ _ _ E1) as [Hsub1 Hrepr1].
    destruct (IH _ _ _ E2) as [Hsub2 Hrepr2].
    pose proof (subseteq_dom _ _ Hsub1). pose proof (subseteq_dom _ _ Hsub2).
    split; [etrans; eassumption|]. constructor.
    + split; [reflexivity|]. simpl.
      eapply repr_grow; [|exact Hsub2|exact Hrepr1]. set_solver.
    + eapply items_repr_grow; [|reflexivity|exact Hrepr2]. set_solver.
Qed.

(** Decoding builds new objects only, and the value they hold is the one
    decoded. *)
Lemma alloc_spec (v : value) :
  forall h p h',
    alloc v h = (p, h') -> h ⊆ h' /\ repr (dom h' ∖ dom h) h' p v.
Proof.
  clear json_loads float_repr str_repr.
  induction v as [| | | | | vs IHvs | d IHd] using value_nested_ind;
    intros h p h' H; simpl in H;
    try (injection H as <- <-; split; [reflexivity | constructor]).
  - destruct (alloc_all alloc vs h) as [ps h1] eqn:E1.
    injection H as <- <-.
    destruct (alloc_all_spec vs IHvs _ _ _ E1) as [Hsub1 Hrepr1].
    assert (Hnew : h1 !! fresh (dom h1) = None)
      by (apply not_elem_of_dom, is_fresh).
    set (l := fresh (dom h1)) in *.
    pose proof (insert_new_subseteq h1 l (OList ps) Hnew) as Hsub2.
    pose proof (subseteq_dom _ _ Hsub1).
    assert (l ∉ dom h1) by (apply not_elem_of_dom; exact Hnew).
    split; [etrans; eassumption|].
    eapply repr_List.
    + rewrite dom_insert_L. set_solver.
    + apply lookup_insert_eq.
    + eapply Forall2_impl; [exact Hrepr1|].
      intros p' v'. apply repr_grow; [|exact Hsub2].
      rewrite dom_insert_L. set_solver.
  - destruct (alloc_items alloc d h) as [items h1] eqn:E1.
    injection H as <- <-.
    destruct (alloc_items_spec d IHd _ _ _ E1) as [Hsub1 Hrepr1].
    assert (Hnew : h1 !! fresh (dom h1) = None)
      by (apply not_elem_of_dom, is_fresh).
    set (l := fresh (dom h1)) in *.
    pose proof (insert_new_subseteq h1 l (ODict items) Hnew) as Hsub2.
    pose proof (subseteq_dom _ _ Hsub1).
    assert (l ∉ dom h1) by (apply not_elem_of_dom; exact Hnew).
    split; [etrans; eassumption|].
    eapply repr_Dict.
    + rewrite dom_insert_L. set_solver.
    + apply lookup_insert_eq.
    + eapply items_repr_grow; [|exact Hsub2|exact Hrepr1].
      rewrite dom_insert_L. set_solver.
Qed.

(** *** Reading through a dict *)

Lemma repr_dict_inv (D : gset loc) (h : heap) (p : pval) (d : dict) :
  repr D h p (VDict d) ->
  exists l items,
    p = PRef l /\ l ∈ D /\ h !! l = Some (ODict items) /\ items_repr D h items d.
Proof. intros H. inversion H; subst. eauto 10. Qed.

Lemma repr_not_dict (D : gset loc) (h : heap) (p : pval) (v : value) :
  repr D h p v -> is_dict v = false -> dict_of h p = None.
Proof.
  intros H Hv. inversion H; subst; simpl; try reflexivity; try discriminate.
  match goal with Hl : h !! _ = Some _ |- _ => rewrite Hl end. reflexivity.
Qed.

Lemma get_h_ref (h : heap) (l : loc) (items : list (string * pval))
      (k : string) (default : pval) :
  h !! l = Some (ODict items) ->
  get_h h (PRef l) k default = Ok (items_get items k default).
Proof. intros H. unfold get_h. simpl. rewrite H. reflexivity. Qed.

Lemma get_h_not_dict (D : gset loc) (h : heap) (p : pval) (v : value)
      (k : string) (default : pval) :
  repr D h p v -> is_dict v = false ->
  get_h h p k default = Raise AttributeError.
Proof.
  intros H Hv. unfold get_h. rewrite (repr_not_dict D h p v H Hv). reflexivity.
Qed.

Lemma get_or_empty_h_ref (h : heap) (l : loc) (items : list (string * pval))
      (k : string) :
  h !! l = Some (ODict items) ->
  get_or_empty_h h (PRef l) k =
  Ok (items_get items k (PRef (fresh (dom h))), <[fresh (dom h) := ODict []]> h).
Proof. intros H. unfold get_or_empty_h. simpl. rewrite H. reflexivity. Qed.

Lemma py_get_not_dict_value (v : value) (k : string) (default : value) :
  is_dict v = false -> py_get v k default = Raise AttributeError.
Proof. destruct v; try reflexivity. discriminate. Qed.

Lemma items_get_repr (D : gset loc) (h : heap) (items : list (string * pval))
      (d : dict) (k : string) (pd : pval) (vd : value) :
  items_repr D h items d -> repr D h pd vd ->
  repr D h (items_get items k pd) (dict_get d k vd).
Proof.
  intros Hitems Hd. unfold items_get, dict_get.
  induction Hitems as [|[k1 p1] [k2 v2] items d [Hk Hv] Hrest IH]; simpl.
  - exact Hd.
  - simpl in Hk, Hv. subst k2. destruct (String.eqb k1 k); [exact Hv | exact IH].
Qed.

Lemma items_set_repr (D : gset loc) (h : heap) (items : list (string * pval))
      (d : dict) (k : string) (p : pval) (v : value) :
  items_repr D h items d -> repr D h p v ->
  items_repr D h (items_set items k p) (dict_set d k v).
Proof.
  intros Hitems Hp. unfold items_repr in *.
  induction Hitems as [|[k1 p1] [k2 v2] items d [Hk Hv] Hrest IH]; simpl.
  - constructor; [split; [reflexivity | exact Hp] | constructor].
  - simpl in Hk, Hv. subst k2. destruct (String.eqb k1 k).
    + constructor; [split; [reflexivity | exact Hp] | exact Hrest].
    + constructor; [split; [reflexivity | exact Hv] | exact IH].
Qed.

Lemma eq_str_repr (D : gset loc) (h : heap) (p : pval) (v : value) (s : string) :
  repr D h p v -> eq_str_h p s = eq_str v s.
Proof. intros H. inversion H; reflexivity. Qed.

Lemma truthy_repr (D : gset loc) (h : heap) (p : pval) (v : value) :
  repr D h p v -> truthy_h h p = truthy v.
Proof.
  intros H. inversion H as [| | | | | l ps vs Hl Hobj Hall | l items d Hl Hobj Hall];
    subst; simpl; try reflexivity.
  - rewrite Hobj. destruct Hall; reflexivity.
  - rewrite Hobj. destruct Hall; reflexivity.
Qed.

Lemma repr_empty_dict (D : gset loc) (h : heap) (l : loc) :
  l ∈ D -> h !! l = Some (ODict []) -> repr D h (PRef l) (VDict []).
Proof. intros Hl Hobj. eapply repr_Dict; [exact Hl | exact Hobj | constructor]. Qed.

(** *** The records *)

Lemma records_in_store (I : gset loc) (h : heap) (locs : list loc) (calls : list dict) :
  records_repr I h locs calls -> forall r, r ∈ locs -> r ∈ dom h.
Proof.
  intros (_ & _ & _ & Hall) r Hr.
  induction Hall as [|r0 c0 locs calls (items & Hobj & _) Hrest IH].
  - inversion Hr.
  - apply elem_of_cons in Hr as [->|Hr]; [|apply IH; exact Hr].
    apply elem_of_dom. eauto.
Qed.

Lemma records_fields_transfer (I I' : gset loc) (h h' : heap)
      (locs : list loc) (calls : list dict) :
  I ⊆ I' ->
  (forall l o, l ∈ I -> h !! l = Some o -> h' !! l = Some o) ->
  (forall r, r ∈ locs -> h' !! r = h !! r) ->
  Forall2 (fun r call =>
             exists items, h !! r = Some (ODict items) /\ items_repr I h items call)
          locs calls ->
  Forall2 (fun r call =>
             exists items, h' !! r = Some (ODict items) /\ items_repr I' h' items call)
          locs calls.
Proof.
  intros HI Hh Hsame Hall.
  induction Hall as [|r c locs calls (items & Hobj & Hitems) Hrest IH]; constructor.
  - exists items. split.
    + rewrite Hsame by (left). exact Hobj.
    + eapply items_repr_transfer; eassumption.
  - apply IH. intros r' Hr'. apply Hsame. right. exact Hr'.
Qed.

(** New objects leave the records as they read. *)
Lemma records_repr_grow (I I' : gset loc) (h h' : heap)
      (locs : list loc) (calls : list dict) :
  records_repr I h locs calls ->
  I ⊆ I' -> h ⊆ h' -> I' ⊆ dom h' ->
  (forall l, l ∈ I' -> l ∈ I \/ l ∉ dom h) ->
  records_repr I' h' locs calls.
Proof.
  clear json_loads float_repr str_repr.
  intros Hrec HI Hh HI' Hnew.
  pose proof (records_in_store I h locs calls Hrec) as Hin.
  destruct Hrec as (HIdom & Hnodup & Hapart & Hall).
  split; [exact HI'|]. split; [exact Hnodup|]. split.
  - intros r Hr Hr'. destruct (Hnew r Hr') as [HrI | Hrh].
    + exact (Hapart r Hr HrI).
    + exact (Hrh (Hin r Hr)).
  - eapply records_fields_transfer; [exact HI| | |exact Hall].
    + intros l o _ Hl. eapply lookup_weaken; eassumption.
    + intros r Hr. apply Hin in Hr. apply elem_of_dom in Hr as [o Ho].
      rewrite Ho. eapply lookup_weaken; eassumption.
Qed.

(** *** The operations on objects against the operations on values *)

Lemma get_h_refines (D : gset loc) (h : heap) (x : pval) (xv : value)
      (k : string) (pd : pval) (vd : value) :
  repr D h x xv -> repr D h pd vd ->
  match py_get xv k vd with
  | Ok v => exists p, get_h h x k pd = Ok p /\ repr D h p v
  | Raise e => get_h h x k pd = Raise e
  end.
Proof.
  intros Hx Hd. destruct (is_dict xv) eqn:Exv.
  - apply is_dict_true in Exv as (d & ->). simpl.
    apply repr_dict_inv in Hx as (l & items & -> & Hl & Hobj & Hitems).
    exists (items_get items k pd). split; [apply get_h_ref; exact Hobj|].
    apply items_get_repr; assumption.
  - rewrite (py_get_not_dict_value xv k vd Exv).
    eapply get_h_not_dict; eassumption.
Qed.

Lemma get_or_empty_h_refines (I : gset loc) (h : heap)
      (locs : list loc) (calls : list dict) (x : pval) (xv : value) (k : string) :
  records_repr I h locs calls -> repr I h x xv ->
  match py_get xv k (VDict []) with
  | Ok v =>
      exists p h' I',
        get_or_empty_h h x k = Ok (p, h') /\
        I ⊆ I' /\ h ⊆ h' /\
        records_repr I' h' locs calls /\ repr I' h' p v
  | Raise e => get_or_empty_h h x k = Raise e
  end.
Proof.
  clear json_loads float_repr str_repr.
  intros Hrec Hx. destruct (is_dict xv) eqn:Exv.
  - apply is_dict_true in Exv as (d & ->). simpl.
    apply repr_dict_inv in Hx as (l & items & -> & Hl & Hobj & Hitems).
    assert (Hnew : h !! fresh (dom h) = None)
      by (apply not_elem_of_dom, is_fresh).
    pose proof (insert_new_subseteq h _ (ODict []) Hnew) as Hsub.
    destruct Hrec as (HIdom & Hrec').
    assert (HI : I ⊆ I ∪ {[fresh (dom h)]}) by set_solver.
    exists (items_get items k (PRef (fresh (dom h)))),
           (<[fresh (dom h) := ODict []]> h), (I ∪ {[fresh (dom h)]}).
    split; [apply get_or_empty_h_ref; exact Hobj|].
    split; [exact HI|]. split; [exact Hsub|]. split.
    + apply (records_repr_grow I _ h); [split; assumption | exact HI | exact Hsub | |].
      * rewrite dom_insert_L. set_solver.
      * intros l' Hl'. apply elem_of_union in Hl' as [Hl'|Hl']; [left; exact Hl'|].
        right. apply elem_of_singleton in Hl'. subst l'. apply is_fresh.
    + apply items_get_repr.
      * eapply items_repr_grow; eassumption.
      * apply repr_empty_dict; [set_solver | apply lookup_insert_eq].
  - rewrite (py_get_not_dict_value xv k _ Exv).
    unfold get_or_empty_h. rewrite (repr_not_dict I h x xv Hx Exv). reflexivity.
Qed.

(** A new record after the others. *)
Lemma records_repr_snoc (I : gset loc) (h : heap)
      (locs : list loc) (calls : list dict)
      (items : list (string * pval)) (call : dict) :
  records_repr I h locs calls ->
  items_repr I h items call ->
  records_repr I (<[fresh (dom h) := ODict items]> h)
               (locs ++ [fresh (dom h)]) (calls ++ [call]).
Proof.
  clear json_loads float_repr str_repr.
  intros Hrec Hitems.
  pose proof (records_in_store I h locs calls Hrec) as Hin.
  destruct Hrec as (HIdom & Hnodup & Hapart & Hall).
  assert (Hfresh : fresh (dom h) ∉ dom h) by apply is_fresh.
  assert (Hnew : h !! fresh (dom h) = None) by (apply not_elem_of_dom; exact Hfresh).
  pose proof (insert_new_subseteq h _ (ODict items) Hnew) as Hsub.
  split; [rewrite dom_insert_L; set_solver|]. split; [|split].
  - apply NoDup_app. split; [exact Hnodup|]. split.
    + intros r Hr Hr'. apply list_elem_of_singleton in Hr'. subst r.
      exact (Hfresh (Hin _ Hr)).
    + apply NoDup_singleton.
  - intros r Hr HrI. apply elem_of_app in Hr as [Hr|Hr].
    + exact (Hapart r Hr HrI).
    + apply list_elem_of_singleton in Hr. subst r. apply Hfresh. set_solver.
  - apply Forall2_app.
    + eapply records_fields_transfer; [reflexivity | | | exact Hall].
      * intros l o _ Hl. eapply lookup_weaken; eassumption.
      * intros r Hr. apply lookup_insert_ne. intros <-. exact (Hfresh (Hin _ Hr)).
    + constructor; [|constructor]. exists items.
      split; [apply lookup_insert_eq|].
      eapply items_repr_grow; [reflexivity | exact Hsub | exact Hitems].
Qed.

Lemma new_call_h_refines (I : gset loc) (h : heap)
      (locs : list loc) (calls : list dict)
      (data tool_input : pval) (datav tool_inputv : value) :
  records_repr I h locs calls ->
  repr I h data datav -> repr I h tool_input tool_inputv ->
  match new_call datav tool_inputv with
  | Ok call =>
      exists r h' I',
        new_call_h data tool_input h = Ok (r, h') /\
        I ⊆ I' /\ h ⊆ h' /\
        records_repr I' h' (locs ++ [r]) (calls ++ [call])
  | Raise e => new_call_h data tool_input h = Raise e
  end.
Proof.
  clear json_loads float_repr str_repr.
  intros Hrec Hdata Hti. unfold new_call, new_call_h.
  pose proof (get_h_refines I h tool_input tool_inputv "tool_name" PNone VNone
                Hti (repr_None _ _)) as H1.
  destruct (py_get tool_inputv "tool_name" VNone) as [namev|e];
    [destruct H1 as (name & -> & Hname) | rewrite H1; reflexivity]. simpl.
  pose proof (get_h_refines I h data datav "timestamp" PNone VNone
                Hdata (repr_None _ _)) as H2.
  destruct (py_get datav "timestamp" VNone) as [startv|e];
    [destruct H2 as (start & -> & Hstart) | rewrite H2; reflexivity]. simpl.
  pose proof (get_or_empty_h_refines I h locs calls tool_input tool_inputv
                "tool_args" Hrec Hti) as H3.
  destruct (py_get tool_inputv "tool_args" (VDict [])) as [inputv|e];
    [destruct H3 as (input & h1 & I1 & -> & HI1 & Hh1 & Hrec1 & Hinput)
    | rewrite H3; reflexivity]. simpl.
  pose proof (get_or_empty_h_refines I1 h1 locs calls data datav "timing" Hrec1
                (repr_grow _ _ _ _ _ _ HI1 Hh1 Hdata)) as H4.
  destruct (py_get datav "timing" (VDict [])) as [timingv|e];
    [destruct H4 as (timing & h2 & I2 & -> & HI2 & Hh2 & Hrec2 & Htiming)
    | rewrite H4; reflexivity]. simpl.
  pose proof (get_h_refines I2 h2 timing timingv "step_timeuse_ms" (PInt 0) (VInt 0)
                Htiming (repr_Int _ _ _)) as H5.
  destruct (py_get timingv "step_timeuse_ms" (VInt 0)) as [durv|e];
    [destruct H5 as (dur & -> & Hdur) | rewrite H5; reflexivity]. simpl.
  unfold new_object.
  assert (Hnew : h2 !! fresh (dom h2) = None)
    by (apply not_elem_of_dom, is_fresh).
  eexists _, _, I2. split; [reflexivity|].
  split; [etrans; eassumption|]. split.
  - etrans; [exact Hh1|]. etrans; [exact Hh2|].
    apply insert_new_subseteq. exact Hnew.
  - apply records_repr_snoc; [exact Hrec2|].
    assert (HI : I ⊆ I2) by (etrans; eassumption).
    assert (Hh : h ⊆ h2) by (etrans; eassumption).
    repeat constructor; simpl.
    + eapply repr_grow; [exact HI | exact Hh | exact Hname].
    + eapply repr_grow; [exact HI | exact Hh | exact Hstart].
    + eapply repr_grow; [exact HI2 | exact Hh2 | exact Hinput].
    + exact Hdur.
Qed.

Lemma Forall2_snoc_cases {A B : Type} (R : A -> B -> Prop)
      (xs : list A) (ys : list B) :
  Forall2 R xs ys ->
  (xs = [] /\ ys = []) \/
  exists xs' x ys' y,
    xs = xs' ++ [x] /\ ys = ys' ++ [y] /\ Forall2 R xs' ys' /\ R x y.
Proof.
  intros H. destruct ys as [|y ys' _] using rev_ind.
  - apply Forall2_nil_inv_r in H. left. split; [exact H | reflexivity].
  - right. apply Forall2_app_inv_r in H as (xs' & xl & H1 & H2 & ->).
    inversion H2 as [|x y' xl' yl' Hxy Hnil]; subst.
    inversion Hnil; subst. eauto 10.
Qed.

Lemma insert_record_frame (I : gset loc) (h : heap) (r : loc) (o : obj) :
  r ∉ I ->
  forall l o', l ∈ I -> h !! l = Some o' -> <[r := o]> h !! l = Some o'.
Proof.
  intros Hr l o' Hl Hobj. rewrite lookup_insert_ne; [exact Hobj|].
  intros <-. exact (Hr Hl).
Qed.

(** The two assignments change the last record in place and nothing
    else. *)
Lemma attach_output_h_refines (I : gset loc) (h : heap)
      (locs : list loc) (calls : list dict) (tool_output : pval) (tool_outputv : value) :
  records_repr I h locs calls ->
  repr I h tool_output tool_outputv ->
  match attach_output calls tool_outputv with
  | Ok calls' =>
      exists h',
        attach_output_h locs tool_output h = Ok (locs, h') /\
        (forall l o, l ∈ I -> h !! l = Some o -> h' !! l = Some o) /\
        records_repr I h' locs calls'
  | Raise e => attach_output_h locs tool_output h = Raise e
  end.
Proof.
  clear json_loads float_repr str_repr.
  intros Hrec Hto. pose proof Hrec as (HIdom & Hnodup & Hapart & Hall).
  apply Forall2_snoc_cases in Hall
    as [[-> ->] | (linit & r & cinit & c & -> & -> & Hinit & (ritems & Hobj & Hritems))].
  - simpl. exists h. split; [reflexivity|]. split; [auto | exact Hrec].
  - unfold attach_output, attach_output_h. rewrite !last_snoc.
    assert (Hr : r ∉ I) by (apply Hapart; apply elem_of_app; right; left).
    pose proof (get_h_refines I h tool_output tool_outputv "results"
                  (PStr "") (VStr "") Hto (repr_Str _ _ _)) as H1.
    destruct (py_get tool_outputv "results" (VStr "")) as [resv|e];
      [destruct H1 as (res & -> & Hres) | rewrite H1; reflexivity]. simpl.
    set (items1 := items_set ritems "output" res).
    set (h1 := <[r := ODict items1]> h).
    assert (Hset1 : setitem_h h r "output" res = Ok h1)
      by (unfold setitem_h; rewrite Hobj; reflexivity).
    rewrite !Hset1. simpl.
    pose proof (insert_record_frame I h r (ODict items1) Hr) as Hframe1.
    pose proof (get_h_refines I h1 tool_output tool_outputv "success"
                  (PBool false) (VBool false)
                  (repr_transfer I I h h1 ltac:(reflexivity) Hframe1 _ _ Hto)
                  (repr_Bool _ _ _)) as H2.
    destruct (py_get tool_outputv "success" (VBool false)) as [sucv|e];
      [destruct H2 as (suc & -> & Hsuc) | rewrite H2; reflexivity]. simpl.
    set (items2 := items_set items1 "success" suc).
    set (h2 := <[r := ODict items2]> h1).
    assert (Hset2 : setitem_h h1 r "success" suc = Ok h2)
      by (unfold setitem_h, h1; rewrite lookup_insert_eq; reflexivity).
    rewrite Hset2. simpl.
    pose proof (insert_record_frame I h1 r (ODict items2) Hr) as Hframe2.
    assert (Hframe : forall l o, l ∈ I -> h !! l = Some o -> h2 !! l = Some o)
      by (intros l o Hl Ho; apply Hframe2; [exact Hl|]; apply Hframe1; assumption).
    rewrite set_last_snoc.
    exists h2. split; [reflexivity|]. split; [exact Hframe|].
    split; [|split; [exact Hnodup|split; [exact Hapart|]]].
    + unfold h2, h1. rewrite !dom_insert_L. set_solver.
    + apply Forall2_app.
      * eapply records_fields_transfer; [reflexivity | exact Hframe | | exact Hinit].
        intros r' Hr'. unfold h2, h1.
        assert (r <> r').
        { intros <-. apply NoDup_app in Hnodup as (_ & Hdisj & _).
          apply (Hdisj r Hr'). left. }
        rewrite !lookup_insert_ne by assumption. reflexivity.
      * constructor; [|constructor]. exists items2.
        split; [apply lookup_insert_eq|].
        apply items_set_repr; [apply items_set_repr|].
        -- eapply items_repr_transfer; [reflexivity | exact Hframe | exact Hritems].
        -- eapply repr_transfer; [reflexivity | exact Hframe | exact Hres].
        -- eapply repr_transfer; [reflexivity | exact Hframe2 | exact Hsuc].
Qed.

(** One iteration on objects does what the iteration on values does, to
    records that read the same; it changes no object but the last record,
    and only adds objects otherwise. *)
Lemma process_h_refines (I : gset loc) (h : heap)
      (locs : list loc) (calls : list dict) (data : pval) (datav : value) :
  records_repr I h locs calls ->
  repr I h data datav ->
  match process calls datav with
  | Ok calls' =>
      exists locs' h' I',
        process_h locs data h = Ok (locs', h') /\
        I ⊆ I' /\
        (forall l o, l ∈ I -> h !! l = Some o -> h' !! l = Some o) /\
        records_repr I' h' locs' calls'
  | Raise e => process_h locs data h = Raise e
  end.
Proof.
  clear json_loads float_repr str_repr.
  intros Hrec Hdata. unfold process, process_h.
  pose proof (get_h_refines I h data datav "event_type" PNone VNone
                Hdata (repr_None _ _)) as H1.
  destruct (py_get datav "event_type" VNone) as [etv|e];
    [destruct H1 as (et & -> & Het) | rewrite H1; reflexivity]. simpl.
  rewrite (eq_str_repr I h et etv "ToolInput" Het).
  rewrite (eq_str_repr I h et etv "ToolOutput" Het).
  destruct (eq_str etv "ToolInput").
  - pose proof (get_or_empty_h_refines I h locs calls data datav "tool_input"
                  Hrec Hdata) as H2.
    destruct (py_get datav "tool_input" (VDict [])) as [tiv|e];
      [destruct H2 as (ti & h1 & I1 & -> & HI1 & Hh1 & Hrec1 & Hti)
      | rewrite H2; reflexivity]. simpl.
    rewrite (truthy_repr I1 h1 ti tiv Hti).
    destruct (truthy tiv).
    + pose proof (new_call_h_refines I1 h1 locs calls data ti datav tiv Hrec1
                    (repr_grow _ _ _ _ _ _ HI1 Hh1 Hdata) Hti) as H3.
      destruct (new_call datav tiv) as [call|e];
        [destruct H3 as (r & h2 & I2 & -> & HI2 & Hh2 & Hrec2)
        | rewrite H3; reflexivity]. simpl.
      exists (locs ++ [r]), h2, I2. split; [reflexivity|].
      split; [etrans; eassumption|]. split; [|exact Hrec2].
      intros l o _ Hl. eapply lookup_weaken; [|exact Hh2].
      eapply lookup_weaken; eassumption.
    + exists locs, h1, I1. split; [reflexivity|]. split; [exact HI1|].
      split; [|exact Hrec1].
      intros l o _ Hl. eapply lookup_weaken; eassumption.
  - destruct (eq_str etv "ToolOutput").
    + pose proof (get_or_empty_h_refines I h locs calls data datav "tool_output"
                    Hrec Hdata) as H2.
      destruct (py_get datav "tool_output" (VDict [])) as [tov|e];
        [destruct H2 as (to & h1 & I1 & -> & HI1 & Hh1 & Hrec1 & Hto)
        | rewrite H2; reflexivity]. simpl.
      pose proof (attach_output_h_refines I1 h1 locs calls to tov Hrec1 Hto) as H3.
      destruct (attach_output calls tov) as [calls'|e];
        [destruct H3 as (h2 & -> & Hframe & Hrec2) | rewrite H3; reflexivity].
      exists locs, h2, I1. split; [reflexivity|]. split; [exact HI1|].
      split; [|exact Hrec2].
      intros l o Hl Ho. apply Hframe; [set_solver|].
      eapply lookup_weaken; eassumption.
    + exists locs, h, I. split; [reflexivity|]. split; [reflexivity|].
      split; [auto | exact Hrec].
Qed.

(** *** The loop on objects against the loop on values *)

Lemma extract_from_h_refines (lines : list string) :
  forall I h locs calls,
    records_repr I h locs calls ->
    match extract_from calls lines with
    | Ok calls' =>
        exists locs' h' I',
          extract_from_h locs lines h = Ok (locs', h') /\
          I ⊆ I' /\
          (forall l o, l ∈ I -> h !! l = Some o -> h' !! l = Some o) /\
          records_repr I' h' locs' calls'
    | Raise e => extract_from_h locs lines h = Raise e
    end.
Proof.
  clear float_repr str_repr.
  induction lines as [|line rest IH]; intros I h locs calls Hrec; simpl.
  - exists locs, h, I. split; [reflexivity|]. split; [reflexivity|].
    split; [auto | exact Hrec].
  - destruct (json_loads line) as [v|e]; simpl; [|reflexivity].
    destruct (alloc v h) as [data h1] eqn:Ealloc.
    destruct (alloc_spec v h data h1 Ealloc) as [Hh1 Hdata].
    pose proof (subseteq_dom _ _ Hh1) as Hdom1.
    assert (HIdom : I ⊆ dom h) by (destruct Hrec as (H & _); exact H).
    assert (Hrec1 : records_repr (I ∪ (dom h1 ∖ dom h)) h1 locs calls).
    { apply (records_repr_grow I _ h); [exact Hrec | | exact Hh1 | |].
      - set_solver.
      - set_solver.
      - intros l Hl. apply elem_of_union in Hl as [Hl|Hl]; [left; exact Hl|].
        right. set_solver. }
    assert (Hdata1 : repr (I ∪ (dom h1 ∖ dom h)) h1 data v)
      by (eapply repr_grow; [|reflexivity|exact Hdata]; set_solver).
    pose proof (process_h_refines _ h1 locs calls data v Hrec1 Hdata1) as H.
    destruct (process calls v) as [calls1|e];
      [destruct H as (locs1 & h2 & I2 & -> & HI2 & Hframe2 & Hrec2)
      | rewrite H; reflexivity]. simpl.
    specialize (IH I2 h2 locs1 calls1 Hrec2).
    destruct (extract_from calls1 rest) as [calls'|e]; [|exact IH].
    destruct IH as (locs' & h' & I' & -> & HI' & Hframe' & Hrec').
    exists locs', h', I'. split; [reflexivity|].
    split; [set_solver|]. split; [|exact Hrec'].
    intros l o Hl Ho. apply Hframe'; [set_solver|].
    apply Hframe2; [set_solver|]. eapply lookup_weaken; eassumption.
Qed.

(** Extraction on objects returns records that read as the records of
    extraction on values, and raises when it raises; it leaves every
    object that was there as it was. *)
Lemma extract_h_refines (lines : list string) (h : heap) :
  match extract lines with
  | Ok calls =>
      exists locs h',
        extract_h lines h = Ok (locs, h') /\
        h ⊆ h' /\
        Forall2 (record_reads h') locs calls
  | Raise e => extract_h lines h = Raise e
  end.
Proof.
  clear float_repr str_repr.
  unfold extract, extract_h.
  assert (Hrec : records_repr (dom h) h [] []).
  { split; [reflexivity|]. split; [apply NoDup_nil_2|]. split; [|constructor].
    intros r Hr. inversion Hr. }
  pose proof (extract_from_h_refines lines (dom h) h [] [] Hrec) as H.
  destruct (extract_from [] lines) as [calls|e]; [|exact H].
  destruct H as (locs & h' & I' & Hrun & HI' & Hframe & (HIdom & _ & _ & Hall)).
  exists locs, h'. split; [exact Hrun|]. split.
  - apply map_subseteq_spec. intros l o Hl. apply Hframe; [|exact Hl].
    apply elem_of_dom. eauto.
  - eapply Forall2_impl; [exact Hall|].
    intros r call (items & Hobj & Hitems). exists items. split; [exact Hobj|].
    eapply items_repr_grow; [exact HIdom | reflexivity | exact Hitems].
Qed.

Lemma record_reads_weaken (h h' : heap) (r : loc) (call : dict) :
  h ⊆ h' -> record_reads h r call -> record_reads h' r call.
Proof.
  intros Hh (items & Hobj & Hitems). exists items. split.
  - eapply lookup_weaken; eassumption.
  - eapply items_repr_grow; [apply subseteq_dom; exact Hh | exact Hh | exact Hitems].
Qed.

(** C9. Two runs of extraction over the same lines, the second in the
    store the first one left, give records that read field for field as
    the same list, the one extraction on values returns.  Each run leaves
    every object it found as it was, so the second run does not disturb
    the records of the first.  And when a run raises, every run over the
    same lines raises the same exception. *)
Theorem extraction_twice_same_records (lines : list string) (h0 : heap) :
  (forall recs1 h1,
      extract_h lines h0 = Ok (recs1, h1) ->
      exists calls recs2 h2,
        extract lines = Ok calls /\
        extract_h lines h1 = Ok (recs2, h2) /\
        h0 ⊆ h1 /\ h1 ⊆ h2 /\
        Forall2 (record_reads h1) recs1 calls /\
        Forall2 (record_reads h2) recs1 calls /\
        Forall2 (record_reads h2) recs2 calls) /\
  (forall e,
      extract_h lines h0 = Raise e ->
      forall h, extract_h lines h = Raise e).
Proof.
  clear float_repr str_repr.
  split.
  - intros recs1 h1 Hrun1.
    pose proof (extract_h_refines lines h0) as H1.
    pose proof (extract_h_refines lines h1) as H2.
    destruct (extract lines) as [calls|e]; [|congruence].
    destruct H1 as (locs1 & h1' & Hrun1' & Hsub1 & Hreads1).
    rewrite Hrun1 in Hrun1'. injection Hrun1' as <- <-.
    destruct H2 as (recs2 & h2 & Hrun2 & Hsub2 & Hreads2).
    exists calls, recs2, h2. split; [reflexivity|]. split; [exact Hrun2|].
    split; [exact Hsub1|]. split; [exact Hsub2|]. split; [exact Hreads1|].
    split; [|exact Hreads2].
    eapply Forall2_impl; [exact Hreads1|].
    intros r call. apply record_reads_weaken. exact Hsub2.
  - intros e Hrun h.
    pose proof (extract_h_refines lines h0) as H1.
    pose proof (extract_h_refines lines h) as H2.
    destruct (extract lines) as [calls|e'].
    + destruct H1 as (locs1 & h1' & Hrun1' & _). congruence.
    + congruence.
Qed.

End Script.

(** * The scenario, run *)

Lemma ToolOutput_sets_last_record_witness :
  exists call',
    process [[("tool_name", VStr "search"); ("output", VStr "stale");
              ("success", VBool false)]]
            search_output = Ok [call'] /\
    dict_lookup call' "output" = Some (VStr "3 hits") /\
    dict_lookup call' "success" = Some (VBool true) /\
    dict_lookup call' "tool_name" = Some (VStr "search").
Proof.
  destruct (proj2 (ToolOutput_sets_last_record
                     [("event_type", VStr "ToolOutput");
                      ("tool_output", VDict [("results", VStr "3 hits");
                                             ("success", VBool true)])]
                     [[("tool_name", VStr "search"); ("output", VStr "stale");
                       ("success", VBool false)]]
                     eq_refl)
                  [] _ _ eq_refl eq_refl)
    as (call' & Hrun & Hout & Hsucc & Hkeep).
  exists call'. split; [exact Hrun|]. split; [exact Hout|]. split; [exact Hsucc|].
  rewrite Hkeep by discriminate. reflexivity.
Defined.

Lemma ToolInput_defaults_witness :
  (exists call,
      process [] (VDict bare_input) = Ok ([] ++ [call]) /\
      dict_lookup call "duration_ms" = Some (VInt 0)) /\
  (exists call,
      process [] (VDict bare_input) = Ok ([] ++ [call]) /\
      dict_lookup call "input" = Some (VDict [])).
Proof.
  pose proof (ToolInput_defaults bare_input [("tool_name", VStr "ls")] []
                eq_refl eq_refl ltac:(discriminate)) as [Hdur Hinp].
  split.
  - exact (Hdur (or_introl eq_refl)).
  - exact (Hinp eq_refl [] eq_refl).
Defined.

Lemma extraction_twice_same_records_witness :
  exists calls recs1 h1 recs2 h2,
    extract_h scenario_loads (file_lines scenario_log) ∅ = Ok (recs1, h1) /\
    extract_h scenario_loads (file_lines scenario_log) h1 = Ok (recs2, h2) /\
    length calls = 2%nat /\
    Forall2 (record_reads h2) recs1 calls /\
    Forall2 (record_reads h2) recs2 calls.
Proof.
  destruct (extract_h scenario_loads (file_lines scenario_log) ∅)
    as [[recs1 h1]|e] eqn:Hrun1; [|vm_compute in Hrun1; discriminate Hrun1].
  destruct (proj1 (extraction_twice_same_records scenario_loads
                     (file_lines scenario_log) ∅) recs1 h1 Hrun1)
    as (calls & recs2 & h2 & Hcalls & Hrun2 & _ & _ & _ & Hreads1 & Hreads2).
  exists calls, recs1, h1, recs2, h2.
  split; [reflexivity|]. split; [exact Hrun2|]. split.
  - vm_compute in Hcalls. injection Hcalls as <-. reflexivity.
  - split; assumption.
Defined.

Lemma extract_one_record_per_trigger_witness :
  exists tool_calls,
    extract scenario_loads (file_lines scenario_log) = Ok tool_calls /\
    length tool_calls = 2%nat /\
    Forall2 derived_from tool_calls [search_input; fetch_input].
Proof.
  apply (extract_one_record_per_trigger scenario_loads
           (file_lines scenario_log) [search_input; search_output; fetch_input]).
  - repeat constructor.
  - repeat constructor.
Defined.

Lemma missing_tool_name_renders_None_witness :
  exists call,
    process [] (VDict anonymous_input) = Ok ([] ++ [call]) /\
    dict_lookup call "tool_name" = Some VNone /\
    (exists rest,
        console_line special_float_repr plain_str_repr 0 call =
        "  " +:+ int_str (Z.of_nat (0 + 1)) +:+ ". None - " +:+ rest) /\
    (exists rest,
        yml_entry special_float_repr plain_str_repr call =
        "  - tool_name: None" +:+ nl +:+ rest).
Proof.
  apply (missing_tool_name_renders_None special_float_repr plain_str_repr
           anonymous_input [("tool_args", VDict [])] [] [] 0).
  - reflexivity.
  - reflexivity.
  - discriminate.
  - reflexivity.
  - reflexivity.
Defined.

Lemma missing_timestamp_renders_None_witness :
  exists call,
    process [] (VDict anonymous_input) = Ok ([] ++ [call]) /\
    dict_lookup call "start_time" = Some VNone /\
    exists rest,
      yml_entry special_float_repr plain_str_repr call =
      "  - tool_name: None" +:+ nl +:+
      "    start_time: " +:+ dquote +:+ "None" +:+ dquote +:+ nl +:+ rest.
Proof.
  apply (missing_timestamp_renders_None special_float_repr plain_str_repr
           anonymous_input [("tool_args", VDict [])] [] []).
  - reflexivity.
  - reflexivity.
  - discriminate.
  - reflexivity.
  - reflexivity.
Defined.

Lemma malformed_line_aborts_witness :
  main scenario_loads special_float_repr plain_str_repr
       ["convert_otel_simple.py"; "bad.jsonl"] scenario_world
  = (Raise JSONDecodeError, scenario_world) /\
  files scenario_world !! "bad.yml" = None.
Proof.
  split.
  - apply (proj2 (malformed_line_aborts scenario_loads special_float_repr
                    plain_str_repr ["convert_otel_simple.py"; "bad.jsonl"]
                    scenario_world damaged_log
                    ["search-input" +:+ nl] ["fetch-input" +:+ nl]
                    ("{" +:+ nl) JSONDecodeError
                    ltac:(vm_compute; reflexivity) eq_refl eq_refl)
                 [[("tool_name", VStr "search"); ("start_time", VStr "t1");
                   ("input", VDict [("q", VStr "cats")]);
                   ("duration_ms", VInt 120)]]).
    reflexivity.
  - vm_compute. reflexivity.
Defined.

Lemma yml_content_shows_four_fields_witness :
  yml_content special_float_repr plain_str_repr
    [[("tool_name", VStr "search"); ("start_time", VStr "t1");
      ("input", VDict [("q", VStr "cats")]); ("duration_ms", VInt 120);
      ("output", VStr "3 hits"); ("success", VBool true)]]
  = yml_content special_float_repr plain_str_repr
      [[("tool_name", VStr "search"); ("start_time", VStr "t1");
        ("input", VDict [("q", VStr "cats")]); ("duration_ms", VInt 120)]].
Proof.
  apply (yml_content_shows_four_fields special_float_repr plain_str_repr).
  repeat constructor.
Defined.

Lemma session_id_is_fixed_witness :
  exists body,
    files (snd (main scenario_loads special_float_repr plain_str_repr
                     ["convert_otel_simple.py"; "run.jsonl"] scenario_world))
      !! "run.yml" =
    Some ("session_id: 306114a3-3d36-43bb-ac40-335fef6307ac" +:+ nl +:+ body).
Proof.
  apply (proj2 (session_id_is_fixed scenario_loads special_float_repr
                  plain_str_repr)
               ["convert_otel_simple.py"; "run.jsonl"] scenario_world).
  vm_compute. reflexivity.
Defined.

(** ** The output path on a directory named like a log *)

(** C4. On the path [data.jsonl/session.jsonl] the replacement also
    rewrites the directory: the destination is [data.yml/session.yml],
    not [data.jsonl/session.yml]. *)
Theorem yml_path_rewrites_directory :
  yml_path "data.jsonl/session.jsonl" = "data.yml/session.yml" /\
  yml_path "data.jsonl/session.jsonl" <> "data.jsonl/session.yml".
Proof. split; [reflexivity | discriminate]. Qed.

(** A path without the suffix is its own destination. *)
Example yml_path_without_suffix : yml_path "session.log" = "session.log".
Proof. reflexivity. Qed.

(** The default path has the suffix at its end only. *)
Example yml_path_default :
  yml_path default_path =
  "logs/sessions/enhanced_otel_306114a3-3d36-43bb-ac40-335fef6307ac.yml".
Proof. reflexivity. Qed.

(** The scenario of the specification: two records, the first with its
    output attached, the second without. *)
Example scenario_extract :
  extract scenario_loads (file_lines scenario_log) =
  Ok [[("tool_name", VStr "search"); ("start_time", VStr "t1");
       ("input", VDict [("q", VStr "cats")]); ("duration_ms", VInt 120);
       ("output", VStr "3 hits"); ("success", VBool true)];
      [("tool_name", VStr "fetch"); ("start_time", VStr "t2");
       ("input", VDict []); ("duration_ms", VInt 0)]].
Proof. reflexivity. Qed.

Example scenario_stdout :
  stdout (snd (main scenario_loads special_float_repr plain_str_repr
                    ["convert_otel_simple.py"; "run.jsonl"] scenario_world)) =
  "Found 2 tool calls:" +:+ nl +:+
  "  1. search - {'q': 'cats'}" +:+ nl +:+
  "  2. fetch - {}" +:+ nl +:+
  nl +:+ "Converted to: run.yml" +:+ nl.
Proof. vm_compute. reflexivity. Qed.

(** Outside the data model: a [tool_input] that is a non-empty string has
    no [get], and a [ToolOutput] event whose [tool_output] is [null] fails
    once a record exists. *)
Example non_mapping_tool_input_raises :
  process [] (VDict [("event_type", VStr "ToolInput"); ("tool_input", VStr "ls")])
  = Raise AttributeError.
Proof. reflexivity. Qed.

Example null_tool_output_raises :
  process [[("tool_name", VStr "ls")]]
          (VDict [("event_type", VStr "ToolOutput"); ("tool_output", VNone)])
  = Raise AttributeError.
Proof. reflexivity. Qed.

(** * The further properties, run *)

Lemma extract_from_continues_witness :
  exists tool_calls',
    extract_from scenario_loads
      [[("tool_name", VStr "ls")]; [("tool_name", VStr "cat")]]
      (file_lines scenario_log) = Ok tool_calls' /\
    continues [[("tool_name", VStr "ls")]; [("tool_name", VStr "cat")]]
              tool_calls'.
Proof.
  eexists. split; [reflexivity|].
  apply (extract_from_continues scenario_loads (file_lines scenario_log)).
  reflexivity.
Defined.

Lemma last_ToolOutput_wins_witness :
  process [[("tool_name", VStr "search"); ("output", VStr "3 hits");
            ("success", VBool true)]]
          (VDict [("event_type", VStr "ToolOutput");
                  ("tool_output", VDict [("results", VStr "none")])])
  = process [[("tool_name", VStr "search")]]
            (VDict [("event_type", VStr "ToolOutput");
                    ("tool_output", VDict [("results", VStr "none")])]).
Proof.
  apply (last_ToolOutput_wins
           [("event_type", VStr "ToolOutput");
            ("tool_output", VDict [("results", VStr "3 hits");
                                   ("success", VBool true)])]).
  - reflexivity.
  - reflexivity.
  - reflexivity.
Defined.

Lemma extract_from_without_ToolOutput_witness :
  exists added,
    [[("tool_name", VStr "ls"); ("output", VStr "a.txt")];
     [("tool_name", VStr "search"); ("start_time", VStr "t1");
      ("input", VDict [("q", VStr "cats")]); ("duration_ms", VInt 120)];
     [("tool_name", VStr "fetch"); ("start_time", VStr "t2");
      ("input", VDict []); ("duration_ms", VInt 0)]]
    = [[("tool_name", VStr "ls"); ("output", VStr "a.txt")]] ++ added /\
    Forall2 derived_from added
            (List.filter is_trigger [search_input; fetch_input]).
Proof.
  apply (extract_from_without_ToolOutput scenario_loads
           ["search-input" +:+ nl; "fetch-input" +:+ nl]
           [search_input; fetch_input]).
  - repeat constructor.
  - repeat constructor.
  - reflexivity.
Defined.

Lemma main_success_stdout_witness :
  exists text tool_calls,
    files scenario_world !! file_path ["convert_otel_simple.py"; "run.jsonl"]
    = Some text /\
    extract scenario_loads (file_lines text) = Ok tool_calls /\
    stdout (snd (main scenario_loads special_float_repr plain_str_repr
                      ["convert_otel_simple.py"; "run.jsonl"] scenario_world)) =
      stdout scenario_world +:+
      "Found " +:+ int_str (Z.of_nat (length tool_calls)) +:+ " tool calls:" +:+ nl +:+
      fold_right String.append ""
        (imap (fun i call =>
                 console_line special_float_repr plain_str_repr i call +:+ nl)
              tool_calls) +:+
      nl +:+ "Converted to: " +:+
      yml_path (file_path ["convert_otel_simple.py"; "run.jsonl"]) +:+ nl.
Proof.
  apply (main_success_stdout scenario_loads special_float_repr plain_str_repr).
  vm_compute. reflexivity.
Defined.


Lemma report_depends_on_triggers_only_witness :
  exists calls1 calls2,
    extract scenario_loads (file_lines scenario_log) = Ok calls1 /\
    extract scenario_loads ["search-input" +:+ nl; "fetch-input" +:+ nl]
    = Ok calls2 /\
    yml_content special_float_repr plain_str_repr calls1 =
    yml_content special_float_repr plain_str_repr calls2 /\
    forall w, print_summary special_float_repr plain_str_repr calls1 w =
              print_summary special_float_repr plain_str_repr calls2 w.
Proof.
  apply (report_depends_on_triggers_only
           scenario_loads special_float_repr plain_str_repr
           (file_lines scenario_log)
           ["search-input" +:+ nl; "fetch-input" +:+ nl]
           [search_input; search_output; fetch_input]
           [search_input; fetch_input]).
  - repeat constructor.
  - repeat constructor.
  - repeat constructor.
  - repeat constructor.
  - reflexivity.
Defined.

Lemma extract_raises_at_first_bad_line_witness :
  exists pre item post tool_calls,
    [Ok ("search-input" +:+ nl); Raise UnicodeDecodeError;
     Ok ("fetch-input" +:+ nl)]
    = List.map Ok pre ++ item :: post /\
    extract scenario_loads pre = Ok tool_calls /\
    (item = Raise UnicodeDecodeError \/
     exists line,
       item = Ok line /\
       (scenario_loads line = Raise UnicodeDecodeError \/
        exists data, scenario_loads line = Ok data /\
                     accepted tool_calls data = false /\
                     UnicodeDecodeError = AttributeError)).
Proof.
  apply (extract_raises_at_first_bad_line scenario_loads
           [Ok ("search-input" +:+ nl); Raise UnicodeDecodeError;
            Ok ("fetch-input" +:+ nl)]
           UnicodeDecodeError).
  reflexivity.
Defined.


(** A write that fails once the destination is open leaves it empty, and
    the summary on the console. *)
Example failed_write_leaves_empty_destination :
  main scenario_loads special_float_repr plain_str_repr
       ["convert_otel_simple.py"; "run.jsonl"] unencodable_world
  = (Raise UnicodeEncodeError,
     World (<["run.yml" := ""]> (files unencodable_world))
           (faults unencodable_world)
           ("Found 2 tool calls:" +:+ nl +:+
            "  1. search - {'q': 'cats'}" +:+ nl +:+
            "  2. fetch - {}" +:+ nl)).
Proof. vm_compute. reflexivity. Qed.

(** The record of a [ToolInput] event does not copy the arguments: its
    [input] is the very object that is the event's [tool_args]. *)
Example record_input_is_the_event_object :
  exists r h items tool_input,
    extract_h scenario_loads ["search-input" +:+ nl] ∅ = Ok ([r], h) /\
    h !! r = Some (ODict items) /\
    h !! 2%positive = Some (ODict tool_input) /\
    items_lookup items "input" = Some (PRef 1%positive) /\
    items_lookup tool_input "tool_args" = Some (PRef 1%positive).
Proof.
  do 4 eexists. split; [vm_compute; reflexivity|].
  split; [vm_compute; reflexivity|].
  split; [vm_compute; reflexivity|].
  split; reflexivity.
Qed.
